(** * Verification of computer_use_demo/tools/computer.py (ComputerTool)

    Shallow embedding of the ComputerTool adapter: the coordinate scaling
    routine [scale_coordinates], the capability descriptor [options], and the
    action dispatcher [__call__] with its screenshot helpers.

    Python floats are IEEE-754 binary64 numbers with round-to-nearest-even;
    they are modelled with the Standard Library's executable specification
    [SpecFloat] at precision 53 and maximal exponent 1024.  Python ints are
    [Z].  The input-injection and screen-capture libraries (pyautogui, PIL)
    are black boxes: their calls are recorded as events of a trace. *)

From Stdlib Require Import ZArith Bool List String Ascii Lia Reals Lra.
From Stdlib Require Import SpecFloat.

Import ListNotations.
Set Warnings "-register-all".
Open Scope Z_scope.

(** ** Python values and formatted messages *)

Inductive pyval :=
| PyNone
| PyBool (b : bool)
| PyInt (n : Z)
| PyFloat (f : spec_float)
| PyStr (s : string)
| PyList (l : list pyval)
| PyTuple (l : list pyval).

(** An f-string before rendering: literal text and interpolated values. *)
Inductive piece := Lit (s : string) | Val (v : pyval).
Definition fstring := list piece.

Inductive exn :=
| ToolError (msg : fstring)          (* ToolError(msg) *)
| OverflowError
| ValueError
| ZeroDivisionError
| TypeError.

Declare Scope res_scope.

Definition res (A : Type) := (exn + A)%type.

Definition rbind {A B} (r : res A) (k : A -> res B) : res B :=
  match r with inl e => inl e | inr a => k a end.

Notation "x <- r ;; k" := (rbind r (fun x => k))
  (at level 61, r at next level, right associativity) : res_scope.
Open Scope res_scope.

(** ** Python floats (binary64) *)

Module PyFloat.

Definition prec : Z := 53.
Definition emax : Z := 1024.

(** [float(n)] for a Python int: correctly rounded, OverflowError when the
    rounded value is infinite. *)
Definition of_int (n : Z) : res spec_float :=
  match binary_normalize prec emax n 0 false with
  | S754_infinity _ => inl OverflowError
  | f => inr f
  end.

(** [a / b] for two Python ints: the exact quotient, correctly rounded. *)
Definition int_truediv (a b : Z) : res spec_float :=
  match b with
  | Z0 => inl ZeroDivisionError
  | _ =>
    match a with
    | Z0 => inr (S754_zero (Z.ltb b 0))
    | _ =>
      match SFdiv prec emax (S754_finite (Z.ltb a 0) (Z.to_pos (Z.abs a)) 0)
                            (S754_finite (Z.ltb b 0) (Z.to_pos (Z.abs b)) 0) with
      | S754_infinity _ => inl OverflowError
      | f => inr f
      end
    end
  end.

Definition is_zero (f : spec_float) : bool :=
  match f with S754_zero _ => true | _ => false end.

(** [a / b] for two Python floats. *)
Definition truediv (a b : spec_float) : res spec_float :=
  if is_zero b then inl ZeroDivisionError else inr (SFdiv prec emax a b).

(** [a * b] for two Python floats. *)
Definition mul (a b : spec_float) : res spec_float := inr (SFmul prec emax a b).

(** [int / float], [float / int] and [int * float]: the int is converted. *)
Definition int_div_float (a : Z) (b : spec_float) : res spec_float :=
  fa <- of_int a ;; truediv fa b.
Definition float_div_int (a : spec_float) (b : Z) : res spec_float :=
  fb <- of_int b ;; truediv a fb.
Definition int_mul_float (a : Z) (b : spec_float) : res spec_float :=
  fa <- of_int a ;; mul fa b.

(** Round half to even of [m / 2^k], for [k > 0]. *)
Definition round_shift (m : Z) (k : Z) : Z :=
  let d := 2 ^ k in
  let q := m / d in
  let r := m mod d in
  match Z.compare (2 * r) d with
  | Lt => q
  | Gt => q + 1
  | Eq => if Z.even q then q else q + 1
  end.

(** [round(f)] (no ndigits): the nearest int, ties to even. *)
Definition round (f : spec_float) : res Z :=
  match f with
  | S754_zero _ => inr 0
  | S754_infinity _ => inl OverflowError
  | S754_nan => inl ValueError
  | S754_finite s m e =>
    let a := if Z.leb 0 e then Z.pos m * 2 ^ e else round_shift (Z.pos m) (- e) in
    inr (if s then - a else a)
  end.

End PyFloat.

(** ** The tool *)

Definition IMAGE_MAX_WIDTH : Z := 1200.

Inductive ScalingSource := COMPUTER | API.

Record ComputerTool := {
  width : Z;
  height : Z;
  display_num : option Z;
  scaling_enabled : bool
}.

(** The int value of an int (or bool, a subclass of int) argument. *)
Definition int_value (v : pyval) : res Z :=
  match v with
  | PyInt n => inr n
  | PyBool b => inr (if b then 1 else 0)
  | _ => inl TypeError
  end.

(** The two scaling factors of [scale_coordinates] (lines 218-222):
    [ratio = width / height], the target height [IMAGE_MAX_WIDTH / ratio],
    [x_scaling_factor = IMAGE_MAX_WIDTH / width] and
    [y_scaling_factor = target_height / height]. *)
Definition scaling_factors (self : ComputerTool) : res (spec_float * spec_float) :=
  ratio <- PyFloat.int_truediv (width self) (height self) ;;
  target_height <- PyFloat.int_div_float IMAGE_MAX_WIDTH ratio ;;
  x_scaling_factor <- PyFloat.int_truediv IMAGE_MAX_WIDTH (width self) ;;
  y_scaling_factor <- PyFloat.float_div_int target_height (height self) ;;
  inr (x_scaling_factor, y_scaling_factor).

(** [scale_coordinates(source, x, y)].  Every caller passes ints for [x] and
    [y] (the validated coordinate, [int(x)] of the pointer, or the tool's own
    width and height); other values are not modelled and give [TypeError]. *)
Definition scale_coordinates (self : ComputerTool) (source : ScalingSource)
    (x y : pyval) : res (pyval * pyval) :=
  if negb (scaling_enabled self) then inr (x, y) else
  factors <- scaling_factors self ;;
  let (x_scaling_factor, y_scaling_factor) := factors in
  xi <- int_value x ;;
  yi <- int_value y ;;
  match source with
  | API =>
    if (xi >? width self) || (yi >? height self) then
      inl (ToolError [Lit "Coordinates "; Val x; Lit ", "; Val y;
                      Lit " are out of bounds"])
    else
      qx <- PyFloat.int_div_float xi x_scaling_factor ;;
      rx <- PyFloat.round qx ;;
      qy <- PyFloat.int_div_float yi y_scaling_factor ;;
      ry <- PyFloat.round qy ;;
      inr (PyInt rx, PyInt ry)
  | COMPUTER =>
    px <- PyFloat.int_mul_float xi x_scaling_factor ;;
    rx <- PyFloat.round px ;;
    py <- PyFloat.int_mul_float yi y_scaling_factor ;;
    ry <- PyFloat.round py ;;
    inr (PyInt rx, PyInt ry)
  end.

Definition default_tool : ComputerTool :=
  {| width := 1920; height := 1080; display_num := None; scaling_enabled := true |}.

Definition tool_wh (w h : Z) : ComputerTool :=
  {| width := w; height := h; display_num := None; scaling_enabled := true |}.

Example scale_1920_computer :
  scale_coordinates default_tool COMPUTER (PyInt 1920) (PyInt 1080)
  = inr (PyInt 1200, PyInt 675).
Proof. vm_compute. reflexivity. Qed.

Example scale_1920_api :
  scale_coordinates default_tool API (PyInt 600) (PyInt 600)
  = inr (PyInt 960, PyInt 960).
Proof. vm_compute. reflexivity. Qed.

(** ** Python string operations on ASCII text *)

Module PyStr.

(** [c.isspace()] for a character below 256 (a character of a Rocq [string]
    stands for the code point of its byte): [\t \n \v \f \r], the
    separators 28-31, space, U+0085 and U+00A0. *)
Definition isspace (c : ascii) : bool :=
  let n := nat_of_ascii c in
  ((9 <=? n) && (n <=? 13))%nat || ((28 <=? n) && (n <=? 32))%nat
  || (n =? 133)%nat || (n =? 160)%nat.

Fixpoint drop_space (l : list ascii) : list ascii :=
  match l with
  | [] => []
  | c :: l' => if isspace c then drop_space l' else l
  end.

(** [s.strip()]. *)
Definition strip (s : string) : string :=
  string_of_list_ascii
    (rev (drop_space (rev (drop_space (list_ascii_of_string s))))).

(** [c.lower()] for a character below 256: the capitals A-Z and
    U+00C0-U+00DE except U+00D7 map to the code point 32 above. *)
Definition lower_char (c : ascii) : ascii :=
  let n := nat_of_ascii c in
  if ((65 <=? n) && (n <=? 90))%nat
     || (((192 <=? n) && (n <=? 222))%nat && negb (n =? 215)%nat)
  then ascii_of_nat (n + 32) else c.

(** [s.lower()]. *)
Fixpoint lower (s : string) : string :=
  match s with
  | EmptyString => EmptyString
  | String c s' => String (lower_char c) (lower s')
  end.

(** [s.split(sep)] for a one-character separator. *)
Fixpoint split (sep : ascii) (s : string) : list string :=
  match s with
  | EmptyString => [EmptyString]
  | String c s' =>
    let rest := split sep s' in
    if Ascii.eqb c sep then EmptyString :: rest
    else match rest with
         | r :: rs => String c r :: rs
         | [] => [String c EmptyString]
         end
  end.

(** [sep in s] for a one-character [sep]. *)
Fixpoint contains (sep : ascii) (s : string) : bool :=
  match s with
  | EmptyString => false
  | String c s' => Ascii.eqb c sep || contains sep s'
  end.

End PyStr.

(** ** Results, the machine and the tool's effects *)

(** A screenshot image; the file bytes written by [save] and read back are
    the image itself, and [base64.b64encode] is modelled as the identity on
    it. *)
Inductive image :=
| Capture (frame : nat)                   (* ImageGrab.grab() *)
| Resized (src : image) (w h : pyval).    (* img.resize((w, h)) *)

(** [ToolResult] of the tools' base module. *)
Record ToolResult := {
  output : option fstring;
  error : option fstring;
  base64_image : option image;
  system : option string
}.

Definition result_output (o : fstring) : ToolResult :=
  {| output := Some o; error := None; base64_image := None; system := None |}.
Definition result_image (i : option image) : ToolResult :=
  {| output := None; error := None; base64_image := i; system := None |}.

(** Calls into pyautogui, PIL, the filesystem and asyncio. *)
Inductive event :=
| MoveTo (x y : pyval)
| DragTo (x y : pyval)
| Hotkey (keys : list string)
| Press (key : string)
| Write (text : string) (interval : spec_float)
| Click
| RightClick
| MiddleClick
| DoubleClick
| Sleep (seconds : spec_float)
| Mkdir (path : string)
| Grab
| Resize (w h : pyval)
| Save (path : string).

Record world := {
  pointer : Z * Z;                   (* pyautogui.position() *)
  uuid_count : nat;                  (* uuid4() calls so far *)
  files : list (string * image);     (* files written *)
  events : list event                (* calls made, oldest first *)
}.

Definition M (A : Type) := world -> res A * world.

Definition mret {A} (a : A) : M A := fun w => (inr a, w).
Definition mbind {A B} (m : M A) (k : A -> M B) : M B :=
  fun w => match m w with
           | (inl e, w') => (inl e, w')
           | (inr a, w') => k a w'
           end.
Definition raise {A} (e : exn) : M A := fun w => (inl e, w).
Definition lift {A} (r : res A) : M A := fun w => (r, w).

Declare Scope monad_scope.
Notation "x <<- m ;; k" := (mbind m (fun x => k))
  (at level 61, m at next level, right associativity) : monad_scope.
Notation "m ;;; k" := (mbind m (fun _ => k))
  (at level 61, right associativity) : monad_scope.
Open Scope monad_scope.

Definition set_pointer (p : Z * Z) (w : world) : world :=
  {| pointer := p; uuid_count := uuid_count w; files := files w; events := events w |}.
Definition add_event (ev : event) (w : world) : world :=
  {| pointer := pointer w; uuid_count := uuid_count w; files := files w;
     events := (events w ++ [ev])%list |}.

(** A call that only records itself. *)
Definition emit (ev : event) : M unit := fun w => (inr tt, add_event ev w).

(** [pyautogui.moveTo] and [pyautogui.dragTo] also move the pointer. *)
Definition move_pointer (ev : event) (x y : pyval) : M unit :=
  fun w =>
    match int_value x, int_value y with
    | inr a, inr b => (inr tt, set_pointer (a, b) (add_event ev w))
    | _, _ => (inr tt, add_event ev w)
    end.

Definition position : M (Z * Z) := fun w => (inr (pointer w), w).

Definition grab : M image :=
  fun w => (inr (Capture (List.length (events w))), add_event Grab w).

Definition save (path : string) (img : image) : M unit :=
  fun w => (inr tt,
            {| pointer := pointer w; uuid_count := uuid_count w;
               files := (path, img) :: files w; events := (events w ++ [Save path])%list |}).

Definition read_file (path : string) : M (option image) :=
  fun w => (inr (option_map snd (find (fun e => String.eqb (fst e) path) (files w))), w).

Definition OUTPUT_DIR : string := "./outputs".

(** [Path(d) / n], as the string of the path. *)
Definition path_div (d n : string) : string := (d ++ "/" ++ n)%string.

(** Python floats written in the source. *)
Definition float_2_0 : spec_float := S754_finite false 1 1.    (* 2.0 *)
Definition float_0_01 : spec_float :=                           (* 0.01 *)
  S754_finite false 5764607523034235 (-59).

Definition api_type : string := "computer_20241022".
Definition name : string := "computer".
Definition _screenshot_delay : spec_float := float_2_0.

Section Tool.

(** [uuid4().hex], as a function of the number of earlier calls. *)
Variable uuid4_hex : nat -> string.

Definition uuid4 : M string :=
  fun w => (inr (uuid4_hex (uuid_count w)),
            {| pointer := pointer w; uuid_count := S (uuid_count w);
               files := files w; events := events w |}).

(** [screenshot()]. *)
Definition screenshot (self : ComputerTool) : M ToolResult :=
  emit (Mkdir OUTPUT_DIR) ;;;
  hex <<- uuid4 ;;
  let path := path_div OUTPUT_DIR ("screenshot_" ++ hex ++ ".png")%string in
  shot <<- grab ;;
  shot <<- (if scaling_enabled self then
              xy <<- lift (scale_coordinates self COMPUTER
                             (PyInt (width self)) (PyInt (height self))) ;;
              let (x, y) := xy in
              emit (Resize x y) ;;; mret (Resized shot x y)
            else mret shot) ;;
  save path shot ;;;
  contents <<- read_file path ;;
  match contents with
  | Some base64_image => mret (result_image (Some base64_image))
  | None => raise (ToolError [Lit "Failed to take screenshot"])
  end.

(** [take_action_screenshot()]. *)
Definition take_action_screenshot (self : ComputerTool) : M ToolResult :=
  emit (Sleep _screenshot_delay) ;;;
  screenshot_result <<- screenshot self ;;
  mret (result_image (base64_image screenshot_result)).

Definition is_none (v : pyval) : bool :=
  match v with PyNone => true | _ => false end.

(** [isinstance(i, int) and i >= 0] ([bool] is a subclass of [int]). *)
Definition is_nonneg_int (v : pyval) : bool :=
  match v with
  | PyInt n => 0 <=? n
  | PyBool _ => true
  | _ => false
  end.

Definition in_list (a : string) (l : list string) : bool :=
  existsb (String.eqb a) l.

(** [__call__(action=..., text=..., coordinate=...)]: [None] is [PyNone]. *)
Definition __call__ (self : ComputerTool) (action : string) (text coordinate : pyval)
    : M ToolResult :=
  if in_list action ["mouse_move"; "left_click_drag"]%string then
    if is_none coordinate then
      raise (ToolError [Lit "coordinate is required for "; Val (PyStr action)]) else
    if negb (is_none text) then
      raise (ToolError [Lit "text is not accepted for "; Val (PyStr action)]) else
    match coordinate with
    | PyList [c0; c1] =>
      if negb (forallb is_nonneg_int [c0; c1]) then
        raise (ToolError [Val coordinate; Lit " must be a tuple of non-negative ints"])
      else
        xy <<- lift (scale_coordinates self API c0 c1) ;;
        let (x, y) := xy in
        if String.eqb action "mouse_move" then
          move_pointer (MoveTo x y) x y ;;; take_action_screenshot self
        else
          move_pointer (DragTo x y) x y ;;; take_action_screenshot self
    | _ => raise (ToolError [Val coordinate; Lit " must be a tuple of length 2"])
    end
  else if in_list action ["key"; "type"]%string then
    if is_none text then
      raise (ToolError [Lit "text is required for "; Val (PyStr action)]) else
    if negb (is_none coordinate) then
      raise (ToolError [Lit "coordinate is not accepted for "; Val (PyStr action)]) else
    match text with
    | PyStr t =>
      if String.eqb action "key" then
        (if PyStr.contains "+"%char t then
           let keys := map (fun key => PyStr.lower (PyStr.strip key)) (PyStr.split "+"%char t) in
           emit (Hotkey keys)
         else emit (Press (PyStr.lower t))) ;;;
        take_action_screenshot self
      else
        emit (Write t float_0_01) ;;; take_action_screenshot self
    | _ =>
      (* [raise ToolError(output=...)]: the constructor of ToolError
         (tools/base.py) takes the one parameter [message], so the call with
         the keyword [output] raises TypeError. *)
      raise TypeError
    end
  else if in_list action ["left_click"; "right_click"; "double_click"; "middle_click";
                          "screenshot"; "cursor_position"]%string then
    if negb (is_none text) then
      raise (ToolError [Lit "text is not accepted for "; Val (PyStr action)]) else
    if negb (is_none coordinate) then
      raise (ToolError [Lit "coordinate is not accepted for "; Val (PyStr action)]) else
    if String.eqb action "screenshot" then screenshot self
    else if String.eqb action "cursor_position" then
      xy <<- position ;;
      scaled <<- lift (scale_coordinates self COMPUTER (PyInt (fst xy)) (PyInt (snd xy))) ;;
      mret (result_output [Lit "X="; Val (fst scaled); Lit ",Y="; Val (snd scaled)])
    else if String.eqb action "left_click" then
      emit Click ;;; take_action_screenshot self
    else if String.eqb action "right_click" then
      emit RightClick ;;; take_action_screenshot self
    else if String.eqb action "middle_click" then
      emit MiddleClick ;;; take_action_screenshot self
    else
      emit DoubleClick ;;; take_action_screenshot self
  else raise (ToolError [Lit "Invalid action: "; Val (PyStr action)]).

End Tool.

(** ** The capability descriptor *)

Record ComputerToolOptions := {
  display_height_px : pyval;
  display_width_px : pyval;
  display_number : option Z
}.

(** The dictionary returned by [to_params]. *)
Record ToolParam := {
  param_name : string;
  param_type : string;
  param_options : ComputerToolOptions
}.

(** The [options] property. *)
Definition options (self : ComputerTool) : res ComputerToolOptions :=
  wh <- scale_coordinates self COMPUTER (PyInt (width self)) (PyInt (height self)) ;;
  let (w, h) := wh in
  inr {| display_width_px := w; display_height_px := h;
         display_number := display_num self |}.

Definition to_params (self : ComputerTool) : res ToolParam :=
  o <- options self ;;
  inr {| param_name := name; param_type := api_type; param_options := o |}.

(** ** Further code of computer.py *)

(** *** [chunks] *)

(** [range(start, stop, step)]: ValueError for a zero step. *)
Definition py_range (start stop step : Z) : res (list Z) :=
  if step =? 0 then inl ValueError else
  let n := if step >? 0 then (stop - start + step - 1) / step
           else (start - stop - step - 1) / (- step) in
  inr (map (fun j => start + step * Z.of_nat j) (seq 0 (Z.to_nat n))).

(** An index of a slice [s[i:j]], clamped to [[0, len(s)]] (negative ones
    count from the end). *)
Definition slice_index (i len : Z) : Z :=
  if i <? 0 then Z.max 0 (i + len) else Z.min i len.

(** [s[i:j]]. *)
Definition py_slice (s : string) (i j : Z) : string :=
  let len := Z.of_nat (String.length s) in
  let i' := slice_index i len in
  let j' := slice_index j len in
  substring (Z.to_nat i') (Z.to_nat (j' - i')) s.

(** [chunks(s, chunk_size)] (lines 52-53). *)
Definition chunks (s : string) (chunk_size : Z) : res (list string) :=
  r <- py_range 0 (Z.of_nat (String.length s)) chunk_size ;;
  inr (map (fun i => py_slice s i (i + chunk_size)) r).

(** *** [__init__] *)

(** The characters below 256 that [int()] skips around its argument: the
    ASCII whitespace [\t \n \v \f \r] and space, and U+0085 and U+00A0
    (a character of a Rocq [string] stands for the code point of its byte). *)
Definition int_isspace (c : ascii) : bool :=
  let n := nat_of_ascii c in
  ((9 <=? n) && (n <=? 13))%nat || (n =? 32)%nat || (n =? 133)%nat || (n =? 160)%nat.

Fixpoint int_drop_space (l : list ascii) : list ascii :=
  match l with
  | [] => []
  | c :: l' => if int_isspace c then int_drop_space l' else l
  end.

Definition digit_value (c : ascii) : option Z :=
  let n := nat_of_ascii c in
  if ((48 <=? n) && (n <=? 57))%nat then Some (Z.of_nat n - 48) else None.

(** Decimal digits with single underscores between digits: the value and the
    number of digits read, after [acc] and [count]. *)
Fixpoint parse_digits (acc : Z) (count : nat) (l : list ascii) : option (Z * nat) :=
  match l with
  | [] => Some (acc, count)
  | c :: l' =>
    match digit_value c with
    | Some d => parse_digits (10 * acc + d) (S count) l'
    | None =>
      if Ascii.eqb c "_" then
        match l' with
        | c' :: _ =>
          match digit_value c' with
          | Some _ => parse_digits acc count l'
          | None => None
          end
        | [] => None
        end
      else None
    end
  end.

(** An unsigned decimal literal: a digit first. *)
Definition parse_unsigned (l : list ascii) : option (Z * nat) :=
  match l with
  | c :: _ =>
    match digit_value c with
    | Some _ => parse_digits 0 0 l
    | None => None
    end
  | [] => None
  end.

(** [sys.get_int_max_str_digits()], the default limit of Python 3.11. *)
Definition int_max_str_digits : nat := 4300.

(** [int(s)] for a string [s] of code points below 256: surrounding whitespace, an optional
    sign, then decimal digits with single underscores between them and at
    most [int_max_str_digits] of them; ValueError otherwise. *)
Definition int_of_str (s : string) : res Z :=
  let l := rev (int_drop_space (rev (int_drop_space (list_ascii_of_string s)))) in
  let r := match l with
           | "-"%char :: l' =>
             option_map (fun nc => (- fst nc, snd nc)) (parse_unsigned l')
           | "+"%char :: l' => parse_unsigned l'
           | _ => parse_unsigned l
           end in
  match r with
  | Some (n, count) => if (count <=? int_max_str_digits)%nat then inr n else inl ValueError
  | None => inl ValueError
  end.

(** [int(os.getenv(key) or default)]: an unset or empty variable gives the
    default. *)
Definition int_getenv_or (v : option string) (default : Z) : res Z :=
  match v with
  | None => inr default
  | Some s => if String.eqb s "" then inr default else int_of_str s
  end.

(** The exceptions of [__init__]. *)
Inductive init_exn :=
| InitError (e : exn)
| AssertionError (msg : string).

(** [ComputerTool()] (lines 85-97), for the environment [getenv]: the tool and
    the value it gives to [pyautogui.FAILSAFE]. *)
Definition __init__ (getenv : string -> option string)
    : (init_exn + (ComputerTool * bool))%type :=
  match int_getenv_or (getenv "WIDTH"%string) 1920 with
  | inl e => inl (InitError e)
  | inr w =>
    match int_getenv_or (getenv "HEIGHT"%string) 1080 with
    | inl e => inl (InitError e)
    | inr h =>
      if (w =? 0) || (h =? 0) then inl (AssertionError "WIDTH, HEIGHT must be set")
      else
        match getenv "DISPLAY_NUM"%string with
        | Some display_num =>
          match int_of_str display_num with
          | inl e => inl (InitError e)
          | inr n =>
            inr ({| width := w; height := h; display_num := Some n;
                    scaling_enabled := true |}, true)
          end
        | None =>
          inr ({| width := w; height := h; display_num := None;
                  scaling_enabled := true |}, true)
        end
    end
  end.

(** The character of a decimal digit and the number a list of digits denotes. *)
Definition digit_char (d : Z) : ascii := ascii_of_nat (48 + Z.to_nat d).
Definition decimal_value (ds : list Z) : Z := fold_left (fun acc d => 10 * acc + d) ds 0.

(** The descriptor of the default 1920 x 1080 display. *)
Definition options_1920 : ComputerToolOptions :=
  {| display_height_px := PyInt 675; display_width_px := PyInt 1200; display_number := None |}.


(** ** Rounding errors of binary64 arithmetic *)

Module FloatErr.

Open Scope R_scope.

Definition bpow (e : Z) : R := powerRZ 2 e.

Lemma bpow_plus a b : bpow (a + b) = bpow a * bpow b.
Proof. unfold bpow. apply powerRZ_add. lra. Qed.

Lemma bpow_gt_0 e : 0 < bpow e.
Proof. apply powerRZ_lt. lra. Qed.

Lemma bpow_IZR e : (0 <= e)%Z -> bpow e = IZR (2 ^ e).
Proof.
  intros He. destruct e as [|p|p]; [reflexivity| |lia].
  unfold bpow. rewrite <- Zpower_pos_powerRZ. reflexivity.
Qed.

Lemma bpow_le a b : (a <= b)%Z -> bpow a <= bpow b.
Proof.
  intros Hab. replace b with (a + (b - a))%Z by lia.
  rewrite bpow_plus, (bpow_IZR (b - a)) by lia.
  assert (1 <= 2 ^ (b - a))%Z by (pose proof (Z.pow_pos_nonneg 2 (b - a)); lia).
  apply IZR_le in H. pose proof (bpow_gt_0 a). nra.
Qed.

Lemma bpow_lt_inv a b : bpow a < bpow b -> (a < b)%Z.
Proof.
  intros H. destruct (Z_lt_le_dec a b) as [|Hba]; [assumption|].
  apply bpow_le in Hba. lra.
Qed.

(** Real value of a float. *)
Definition B2R (f : spec_float) : R :=
  match f with
  | S754_finite s m e => (if s then -1 else 1) * IZR (Zpos m) * bpow e
  | _ => 0
  end.

(** A finite float that is zero or positive. *)
Definition fin_nonneg (f : spec_float) : Prop :=
  match f with
  | S754_zero false => True
  | S754_finite false _ _ => True
  | _ => False
  end.

Definition u : R := bpow (-52).
Definition eta0 : R := bpow (-1074).
Definition eps : R := bpow (-50).
Definition eta : R := bpow (-1072).

Definition fexp64 := fexp PyFloat.prec PyFloat.emax.

Lemma fexp64_eq e : fexp64 e = Z.max (e - 53) (-1074).
Proof. reflexivity. Qed.

(** [t] lies between [m] and [m + 1] units of [2^e]. *)
Definition inv (m e : Z) (t : R) : Prop :=
  IZR m * bpow e <= t <= IZR (m + 1) * bpow e.

Lemma digits2_pos_bounds p :
  (2 ^ (Zpos (digits2_pos p) - 1) <= Zpos p < 2 ^ Zpos (digits2_pos p))%Z.
Proof.
  induction p as [p IH|p IH|]; simpl digits2_pos;
    [rewrite (Pos2Z.inj_xI p) | rewrite (Pos2Z.inj_xO p) | simpl; lia];
    rewrite Pos2Z.inj_succ; set (d := Z.pos (digits2_pos p)) in *;
    assert (Hd : (1 <= d)%Z) by lia;
    replace (Z.succ d - 1)%Z with d by lia;
    assert (E1 : (2 ^ Z.succ d = 2 * 2 ^ d)%Z) by (apply Z.pow_succ_r; lia);
    assert (E2 : (2 ^ d = 2 * 2 ^ (d - 1))%Z)
      by (rewrite <- Z.pow_succ_r by lia; f_equal; lia);
    lia.
Qed.

Lemma shr_1_m mrs :
  (0 <= shr_m mrs)%Z -> shr_m (shr_1 mrs) = (shr_m mrs / 2)%Z.
Proof.
  destruct mrs as [m r s]; simpl. intros Hm.
  destruct m as [|p|p]; [reflexivity| |lia].
  destruct p as [p|p|]; simpl; [| |reflexivity].
  - apply Z.div_unique with 1%Z; [lia|]. rewrite Pos2Z.inj_xI. lia.
  - apply Z.div_unique with 0%Z; [lia|]. rewrite Pos2Z.inj_xO. lia.
Qed.

Lemma shr_1_nonneg mrs : (0 <= shr_m mrs)%Z -> (0 <= shr_m (shr_1 mrs))%Z.
Proof. intros H. rewrite shr_1_m by exact H. apply Z.div_pos; lia. Qed.

Lemma iter_shr_m p : forall mrs, (0 <= shr_m mrs)%Z ->
  (0 <= shr_m (iter_pos shr_1 p mrs))%Z /\
  shr_m (iter_pos shr_1 p mrs) = (shr_m mrs / 2 ^ Zpos p)%Z.
Proof.
  induction p as [p IH|p IH|]; intros mrs Hm; cbn [iter_pos].
  - pose proof (shr_1_nonneg mrs Hm) as H1.
    destruct (IH _ H1) as [H2 E2]. destruct (IH _ H2) as [H3 E3].
    split; [exact H3|]. rewrite E3, E2, shr_1_m by exact Hm.
    rewrite !Z.div_div by (try apply Z.pow_pos_nonneg; lia).
    f_equal. rewrite (Pos2Z.inj_xI p).
    replace (2 * Z.pos p + 1)%Z with (Z.pos p + Z.pos p + 1)%Z by lia.
    rewrite !Z.pow_add_r by lia. ring.
  - destruct (IH _ Hm) as [H2 E2]. destruct (IH _ H2) as [H3 E3].
    split; [exact H3|]. rewrite E3, E2.
    rewrite Z.div_div by (try apply Z.pow_pos_nonneg; lia).
    f_equal. rewrite (Pos2Z.inj_xO p).
    replace (2 * Z.pos p)%Z with (Z.pos p + Z.pos p)%Z by lia.
    rewrite !Z.pow_add_r by lia. ring.
  - split; [apply shr_1_nonneg; exact Hm|]. rewrite shr_1_m by exact Hm. reflexivity.
Qed.

Lemma inv_shift m e k t :
  (0 <= m)%Z -> (0 <= k)%Z -> inv m e t -> inv (m / 2 ^ k) (e + k) t.
Proof.
  intros Hm Hk [H1 H2]. unfold inv.
  assert (Hp : (0 < 2 ^ k)%Z) by (apply Z.pow_pos_nonneg; lia).
  pose proof (Z.div_mod m (2 ^ k) ltac:(lia)) as Hdm.
  pose proof (Z.mod_pos_bound m (2 ^ k) Hp) as Hr.
  set (q := (m / 2 ^ k)%Z) in *. set (r := (m mod 2 ^ k)%Z) in *.
  rewrite bpow_plus, (bpow_IZR k) by lia.
  pose proof (bpow_gt_0 e) as He.
  assert (A : IZR q * IZR (2 ^ k) <= IZR m).
  { rewrite <- mult_IZR. apply IZR_le. lia. }
  assert (B : IZR (m + 1) <= IZR (q + 1) * IZR (2 ^ k)).
  { rewrite <- mult_IZR. apply IZR_le. lia. }
  split; nra.
Qed.

Lemma shr_m_of_loc m l : shr_m (shr_record_of_loc m l) = m.
Proof. destruct l as [|[]]; reflexivity. Qed.

Lemma loc_of_shr_record_of_loc m l : loc_of_shr_record (shr_record_of_loc m l) = l.
Proof. destruct l as [|[]]; reflexivity. Qed.

Lemma shr_fexp_spec m e l t :
  (0 <= m)%Z -> inv m e t ->
  let '(mrs', e') := shr_fexp PyFloat.prec PyFloat.emax m e l in
  (0 <= shr_m mrs')%Z /\ inv (shr_m mrs') e' t /\
  ((e' = e /\ mrs' = shr_record_of_loc m l) \/
   (e' = fexp64 (Zdigits2 m + e) /\ (e < e')%Z)).
Proof.
  intros Hm Hinv. unfold shr_fexp, shr. fold fexp64.
  destruct (fexp64 (Zdigits2 m + e) - e)%Z as [|p|p] eqn:Ed.
  - rewrite shr_m_of_loc. auto.
  - assert (Hm' : (0 <= shr_m (shr_record_of_loc m l))%Z)
      by (rewrite shr_m_of_loc; exact Hm).
    destruct (iter_shr_m p _ Hm') as [H1 H2]. rewrite shr_m_of_loc in H2.
    split; [exact H1|]. rewrite H2. split.
    + apply inv_shift; [exact Hm|lia|exact Hinv].
    + right. split; lia.
  - rewrite shr_m_of_loc. auto.
Qed.


Lemma inv_round m e t M :
  inv m e t -> (M = m \/ M = m + 1)%Z -> Rabs (IZR M * bpow e - t) <= bpow e.
Proof.
  intros [H1 H2] HM. rewrite plus_IZR in H2. pose proof (bpow_gt_0 e).
  destruct HM as [-> | ->]; rewrite ?plus_IZR; apply Rabs_le; split; nra.
Qed.

Lemma rne_cases m l :
  round_nearest_even m l = m \/ round_nearest_even m l = (m + 1)%Z.
Proof. destruct l as [|[]]; simpl; try destruct (Z.even m); auto. Qed.

Lemma inv_nonneg m e t : (0 <= m)%Z -> inv m e t -> 0 <= t.
Proof.
  intros Hm [H1 _]. apply IZR_le in Hm. pose proof (bpow_gt_0 e). nra.
Qed.

Lemma Rabs_le_iff a b : Rabs a <= b <-> - b <= a <= b.
Proof.
  split.
  - intros H. pose proof (Rle_abs a). pose proof (Rle_abs (- a)).
    rewrite Rabs_Ropp in *. lra.
  - apply Rabs_le.
Qed.

Lemma u_pos : 0 < u.
Proof. apply bpow_gt_0. Qed.

Lemma eta0_pos : 0 < eta0.
Proof. apply bpow_gt_0. Qed.

Lemma shift_bound m e t e' :
  (0 <= m)%Z -> inv m e t -> e' = fexp64 (Zdigits2 m + e) -> (e < e')%Z ->
  bpow e' <= u * t + eta0.
Proof.
  intros Hm Hinv He' Hlt. pose proof (inv_nonneg m e t Hm Hinv) as Ht.
  pose proof u_pos. pose proof eta0_pos.
  assert (0 <= u * t) by (apply Rmult_le_pos; lra).
  rewrite fexp64_eq in He'.
  destruct m as [|p|p]; [|  |lia].
  - simpl in He'. assert (E : e' = (-1074)%Z) by lia. rewrite E.
    unfold eta0 in *. lra.
  - simpl Zdigits2 in He'. pose proof (digits2_pos_bounds p) as [Hd1 _].
    set (d := Z.pos (digits2_pos p)) in *.
    destruct (Z.max_spec (d + e - 53) (-1074)) as [[_ Hmx] | [_ Hmx]];
      rewrite Hmx in He'; subst e'.
    + unfold eta0 in *. lra.
    + replace (d + e - 53)%Z with (-52 + (d - 1) + e)%Z by lia.
      rewrite !bpow_plus, (bpow_IZR (d - 1)) by lia. fold u.
      apply IZR_le in Hd1. destruct Hinv as [Hi _].
      pose proof (bpow_gt_0 e).
      assert (A : IZR (2 ^ (d - 1)) * bpow e <= t)
        by (apply (Rle_trans _ (IZR (Z.pos p) * bpow e));
            [apply Rmult_le_compat_r; lra | exact Hi]).
      rewrite Rmult_assoc.
      assert (u * (IZR (2 ^ (d - 1)) * bpow e) <= u * t)
        by (apply Rmult_le_compat_l; lra).
      lra.
Qed.

Lemma bpow_972 : bpow 972 = 4 * bpow 970.
Proof.
  replace 972%Z with (970 + 2)%Z by reflexivity.
  rewrite bpow_plus, (bpow_IZR 2) by lia. simpl. lra.
Qed.

Lemma eps_eq : eps = 4 * u.
Proof.
  unfold eps, u. replace (-50)%Z with (-52 + 2)%Z by reflexivity.
  rewrite bpow_plus, (bpow_IZR 2) by lia. simpl. lra.
Qed.

Lemma eta_eq : eta = 4 * eta0.
Proof.
  unfold eta, eta0. replace (-1072)%Z with (-1074 + 2)%Z by reflexivity.
  rewrite bpow_plus, (bpow_IZR 2) by lia. simpl. lra.
Qed.

Lemma u_small : u <= / 4.
Proof.
  unfold u. replace (-52)%Z with (-2 + -50)%Z by reflexivity.
  rewrite bpow_plus. unfold bpow at 1. simpl.
  pose proof (bpow_le (-50) 0 ltac:(lia)) as H. unfold bpow at 2 in H. simpl in H.
  pose proof (bpow_gt_0 (-50)). lra.
Qed.

Lemma eta0_small : eta0 <= bpow 970.
Proof. apply bpow_le. lia. Qed.

(** Error bound for the common rounding step of the arithmetic operations:
    an exact value [t] known to lie between [mx] and [mx + 1] units of
    [2^ex] (exactly [mx] units when the location is [loc_Exact]) is rounded
    to a finite non-negative float within [eps * t + eta] of [t]. *)
Lemma round_aux_spec mx ex lx t :
  (0 <= mx)%Z -> inv mx ex t ->
  (lx = loc_Exact -> t = IZR mx * bpow ex) ->
  (lx <> loc_Exact -> bpow ex <= u * t + eta0) ->
  t <= bpow 970 ->
  fin_nonneg (binary_round_aux PyFloat.prec PyFloat.emax false mx ex lx) /\
  Rabs (B2R (binary_round_aux PyFloat.prec PyFloat.emax false mx ex lx) - t)
    <= eps * t + eta.
Proof.
  intros Hm Hinv Hex Hin Ht. unfold binary_round_aux.
  pose proof (inv_nonneg mx ex t Hm Hinv) as Ht0.
  pose proof u_pos as Hu. pose proof eta0_pos as He0. pose proof u_small as Hus.
  pose proof (shr_fexp_spec mx ex lx t Hm Hinv) as S1.
  destruct (shr_fexp PyFloat.prec PyFloat.emax mx ex lx) as [mrs1 e1] eqn:E1.
  destruct S1 as (Hm1 & Hinv1 & Hc1).
  assert (HMc := rne_cases (shr_m mrs1) (loc_of_shr_record mrs1)).
  remember (round_nearest_even (shr_m mrs1) (loc_of_shr_record mrs1)) as M eqn:EM.
  assert (HM : (0 <= M)%Z) by lia.
  assert (Herr1 : Rabs (IZR M * bpow e1 - t) <= u * t + eta0).
  { destruct Hc1 as [[-> ->] | [He1 Hlt]].
    - rewrite shr_m_of_loc, loc_of_shr_record_of_loc in EM.
      destruct lx as [|c] eqn:Elx.
      + simpl in EM. subst M. rewrite <- Hex by reflexivity.
        rewrite Rminus_diag, Rabs_R0. nra.
      + rewrite shr_m_of_loc in HMc.
        apply (Rle_trans _ (bpow ex)); [exact (inv_round mx ex t M Hinv HMc)|].
        apply Hin. discriminate.
    - apply (Rle_trans _ (bpow e1)); [exact (inv_round _ _ t M Hinv1 HMc)|].
      eapply shift_bound; [exact Hm | exact Hinv | exact He1 | exact Hlt]. }
  set (t2 := IZR M * bpow e1). fold t2 in Herr1.
  assert (Hinv2 : inv M e1 t2).
  { unfold inv, t2. rewrite plus_IZR. pose proof (bpow_gt_0 e1). split; nra. }
  pose proof (shr_fexp_spec M e1 loc_Exact t2 HM Hinv2) as S2.
  destruct (shr_fexp PyFloat.prec PyFloat.emax M e1 loc_Exact) as [mrs2 e2] eqn:E2.
  destruct S2 as (Hm2 & Hinv2' & Hc2).
  assert (Ht2 : 0 <= t2) by (eapply inv_nonneg; eauto).
  assert (Herr2 : Rabs (IZR (shr_m mrs2) * bpow e2 - t2) <= u * t2 + eta0).
  { destruct Hc2 as [[-> ->] | [He2 Hlt2]].
    - rewrite shr_m_of_loc. fold t2. rewrite Rminus_diag, Rabs_R0.
      assert (0 <= u * t2) by (apply Rmult_le_pos; lra). lra.
    - apply (Rle_trans _ (bpow e2)).
      + apply (inv_round (shr_m mrs2) e2 t2); [exact Hinv2' | left; reflexivity].
      + eapply shift_bound; [exact HM | exact Hinv2 | exact He2 | exact Hlt2]. }
  set (v := IZR (shr_m mrs2) * bpow e2) in *.
  assert (Hv : Rabs (v - t) <= eps * t + eta).
  { rewrite eps_eq, eta_eq.
    apply Rabs_le_iff in Herr1. apply Rabs_le_iff in Herr2.
    assert (A : u * t2 <= u * (t + (u * t + eta0)))
      by (apply Rmult_le_compat_l; lra).
    assert (B : u * (u * t) <= / 4 * (u * t))
      by (apply Rmult_le_compat_r; [apply Rmult_le_pos|]; lra).
    assert (C : u * eta0 <= / 4 * eta0) by (apply Rmult_le_compat_r; lra).
    assert (0 <= u * t) by (apply Rmult_le_pos; lra).
    apply Rabs_le_iff. split; lra. }
  assert (Ev : v = IZR (shr_m mrs2) * bpow e2) by reflexivity.
  clearbody v.
  destruct (shr_m mrs2) as [|p|p] eqn:Em2.
  - split; [exact I|]. simpl B2R. replace 0 with v by (rewrite Ev; simpl; ring).
    exact Hv.
  - destruct (Z.leb e2 (PyFloat.emax - PyFloat.prec)) eqn:Hle.
    + split; [exact I|]. simpl B2R.
      replace (1 * IZR (Z.pos p) * bpow e2) with v by (rewrite Ev; ring). exact Hv.
    + exfalso. apply Z.leb_gt in Hle. unfold PyFloat.emax, PyFloat.prec in Hle.
      assert (H972 : bpow 972 <= bpow e2) by (apply bpow_le; lia).
      assert (Hp1 : 1 <= IZR (Z.pos p)) by (apply IZR_le; lia).
      assert (Hv1 : bpow e2 <= v)
        by (rewrite Ev; pose proof (bpow_gt_0 e2); nra).
      apply Rabs_le_iff in Hv.
      assert (eps * t <= t)
        by (rewrite eps_eq; replace t with (1 * t) at 2 by ring;
            apply Rmult_le_compat_r; lra).
      assert (eta <= bpow 970) by (apply bpow_le; lia).
      rewrite bpow_972 in H972. pose proof (bpow_gt_0 970). lra.
  - lia.
Qed.


(** [f] is a finite non-negative float within [eps * t + eta] of [t]. *)
Definition approx (f : spec_float) (t : R) : Prop :=
  fin_nonneg f /\ Rabs (B2R f - t) <= eps * t + eta.

Lemma B2R_nonneg f : fin_nonneg f -> 0 <= B2R f.
Proof.
  intros H. destruct f as [s|s| |s m e]; simpl; try lra.
  destruct s; [contradiction|]. pose proof (bpow_gt_0 e). pose proof (IZR_lt 0 (Z.pos m) ltac:(lia)). nra.
Qed.

Lemma eps_pos : 0 < eps.
Proof. apply bpow_gt_0. Qed.

Lemma eta_pos : 0 < eta.
Proof. apply bpow_gt_0. Qed.

Lemma iter_xO d : forall m, Z.pos (Pos.iter xO m d) = (Z.pos m * 2 ^ Z.pos d)%Z.
Proof.
  induction d as [|d IH] using Pos.peano_ind; intros m.
  - simpl. lia.
  - rewrite Pos.iter_succ, Pos2Z.inj_xO, IH, Pos2Z.inj_succ, Z.pow_succ_r by lia.
    ring.
Qed.

Lemma binary_normalize_spec n :
  (0 <= n)%Z -> IZR n <= bpow 970 ->
  approx (binary_normalize PyFloat.prec PyFloat.emax n 0 false) (IZR n).
Proof.
  intros Hn Hb. destruct n as [|p|p]; [|  |lia].
  - split; [exact I|]. simpl. rewrite Rminus_diag, Rabs_R0.
    pose proof eps_pos. pose proof eta_pos. lra.
  - unfold binary_normalize, binary_round, shl_align.
    destruct (fexp PyFloat.prec PyFloat.emax (Z.pos (digits2_pos p) + 0) - 0)%Z
      as [|d|d] eqn:Ed;
      [ | | ];
      (apply round_aux_spec; [lia | | | intros Hne; exfalso; apply Hne; reflexivity | exact Hb]).
    + unfold inv. change (bpow 0) with 1. rewrite plus_IZR. split; lra.
    + intros _. change (bpow 0) with 1. ring.
    + unfold inv. change (bpow 0) with 1. rewrite plus_IZR. split; lra.
    + intros _. change (bpow 0) with 1. ring.
    + assert (E : IZR (Z.pos (Pos.iter xO p d)) * bpow (fexp PyFloat.prec PyFloat.emax (Z.pos (digits2_pos p) + 0)) = IZR (Z.pos p)).
      { rewrite iter_xO, mult_IZR, <- bpow_IZR by lia.
        rewrite Rmult_assoc, <- bpow_plus.
        replace (Z.pos d + fexp PyFloat.prec PyFloat.emax (Z.pos (digits2_pos p) + 0))%Z
          with 0%Z by lia. simpl. ring. }
      split; [rewrite E; lra|]. rewrite plus_IZR, Rmult_plus_distr_r, E.
      pose proof (bpow_gt_0 (fexp PyFloat.prec PyFloat.emax (Z.pos (digits2_pos p) + 0))).
      lra.
    + intros _. symmetry.
      rewrite iter_xO, mult_IZR, <- bpow_IZR by lia.
      rewrite Rmult_assoc, <- bpow_plus.
      replace (Z.pos d + fexp PyFloat.prec PyFloat.emax (Z.pos (digits2_pos p) + 0))%Z
        with 0%Z by lia. simpl. ring.
Qed.

Lemma bpow_opp y : bpow (- y) = / bpow y.
Proof.
  pose proof (bpow_gt_0 y). pose proof (bpow_plus y (- y)) as E.
  replace (y + - y)%Z with 0%Z in E by lia. change (bpow 0) with 1 in E.
  field_simplify_eq; [|lra]. lra.
Qed.

Lemma bpow_minus x y : bpow (x - y) = bpow x / bpow y.
Proof. unfold Z.sub. rewrite bpow_plus, bpow_opp. reflexivity. Qed.

Lemma new_location_exact n r : new_location n r = loc_Exact -> r = 0%Z.
Proof.
  unfold new_location, new_location_even, new_location_odd.
  destruct (Z.even n); destruct (Z.eqb_spec r 0); congruence.
Qed.

Lemma div_le_compat a1 a2 b1 b2 :
  0 <= a1 <= a2 -> 0 < b2 <= b1 -> a1 / b1 <= a2 / b2.
Proof.
  intros Ha Hb. unfold Rdiv.
  apply Rmult_le_compat; [lra | left; apply Rinv_0_lt_compat; lra | lra |].
  apply Rinv_le_contravar; lra.
Qed.

Lemma bpow_fexp_le d : bpow (fexp64 d) <= u * bpow (d - 1) + eta0.
Proof.
  rewrite fexp64_eq. pose proof (bpow_gt_0 (d - 1)). pose proof u_pos.
  assert (0 <= u * bpow (d - 1)) by (apply Rmult_le_pos; lra).
  destruct (Z.max_spec (d - 53) (-1074)) as [[_ ->] | [_ ->]].
  - unfold eta0. lra.
  - replace (d - 53)%Z with (-52 + (d - 1))%Z by lia. rewrite bpow_plus.
    fold u. pose proof eta0_pos. lra.
Qed.

Lemma shift_eq m s : (0 <= s)%Z ->
  match s with
  | Z0 => m | Zpos _ => Z.shiftl m s | Zneg _ => 0%Z
  end = (m * 2 ^ s)%Z.
Proof.
  intros Hs. destruct s as [|p|p].
  - rewrite Z.pow_0_r. lia.
  - rewrite Z.shiftl_mul_pow2; lia.
  - lia.
Qed.

Lemma div_finite_spec mx ex my ey :
  B2R (S754_finite false mx ex) / B2R (S754_finite false my ey) <= bpow 970 ->
  approx (SFdiv PyFloat.prec PyFloat.emax
            (S754_finite false mx ex) (S754_finite false my ey))
         (B2R (S754_finite false mx ex) / B2R (S754_finite false my ey)).
Proof.
  cbn [B2R]. rewrite !Rmult_1_l.
  set (t := IZR (Z.pos mx) * bpow ex / (IZR (Z.pos my) * bpow ey)).
  intros Ht. unfold SFdiv. change (xorb false false) with false.
  unfold SFdiv_core_binary. fold fexp64.
  set (D := (Zdigits2 (Z.pos mx) + ex - (Zdigits2 (Z.pos my) + ey))%Z).
  set (e' := Z.min (fexp64 D) (ex - ey)).
  assert (Hs : (0 <= ex - ey - e')%Z) by (unfold e'; lia).
  set (s := (ex - ey - e')%Z) in *.
  rewrite (shift_eq (Z.pos mx) s Hs).
  pose proof (Z_div_mod (Z.pos mx * 2 ^ s) (Z.pos my) ltac:(lia)) as Hdm.
  destruct (Z.div_eucl (Z.pos mx * 2 ^ s) (Z.pos my)) as [q r].
  destruct Hdm as [Hdm Hr].
  pose proof (bpow_gt_0 e') as Hpe. pose proof (bpow_gt_0 ex). pose proof (bpow_gt_0 ey).
  assert (Hmy : 0 < IZR (Z.pos my)) by (apply IZR_lt; lia).
  assert (Hmx : 0 < IZR (Z.pos mx)) by (apply IZR_lt; lia).
  assert (Et : t = (IZR q + IZR r / IZR (Z.pos my)) * bpow e').
  { unfold t.
    assert (E1 : IZR (Z.pos mx) * bpow s = IZR (Z.pos my) * IZR q + IZR r).
    { rewrite (bpow_IZR s) by lia. rewrite <- !mult_IZR, <- plus_IZR.
      f_equal. lia. }
    assert (E2 : bpow ex = bpow s * bpow e' * bpow ey).
    { rewrite <- !bpow_plus. f_equal. unfold s. lia. }
    rewrite E2. field_simplify; [|lra|lra].
    replace (IZR (Z.pos mx) * bpow s * bpow e')
      with ((IZR (Z.pos my) * IZR q + IZR r) * bpow e') by (rewrite <- E1; ring).
    field. lra. }
  assert (Hq : (0 <= q)%Z) by nia.
  assert (Hrb : 0 <= IZR r / IZR (Z.pos my) < 1).
  { assert (0 <= IZR r) by (apply IZR_le; lia).
    assert (IZR r < IZR (Z.pos my)) by (apply IZR_lt; lia).
    split.
    - apply Rmult_le_pos; [lra|]. left. apply Rinv_0_lt_compat. lra.
    - apply (Rmult_lt_reg_r (IZR (Z.pos my))); [lra|].
      unfold Rdiv. rewrite Rmult_assoc, Rinv_l by lra. lra. }
  apply round_aux_spec; [exact Hq | | | | exact Ht].
  - unfold inv. rewrite Et, plus_IZR. split; nra.
  - intros Hl. apply new_location_exact in Hl. subst r.
    rewrite Et. unfold Rdiv. rewrite Rmult_0_l, Rplus_0_r. reflexivity.
  - intros _.
    apply (Rle_trans _ (bpow (fexp64 D))); [apply bpow_le; unfold e'; lia|].
    apply (Rle_trans _ (u * bpow (D - 1) + eta0)); [apply bpow_fexp_le|].
    apply Rplus_le_compat_r. apply Rmult_le_compat_l; [left; apply u_pos|].
    pose proof (digits2_pos_bounds mx) as [Hx _].
    pose proof (digits2_pos_bounds my) as [_ Hy].
    simpl Zdigits2 in D.
    set (dx := Z.pos (digits2_pos mx)) in *. set (dy := Z.pos (digits2_pos my)) in *.
    assert (ED : bpow (D - 1)
                 = bpow (dx - 1) * bpow ex / (bpow dy * bpow ey)).
    { unfold D. rewrite <- !bpow_plus, <- bpow_minus. f_equal. lia. }
    rewrite ED. unfold t. apply div_le_compat.
    + split; [apply Rmult_le_pos; left; apply bpow_gt_0|].
      apply Rmult_le_compat_r; [lra|]. rewrite bpow_IZR by lia. apply IZR_le. lia.
    + split; [apply Rmult_lt_0_compat; lra|].
      apply Rmult_le_compat_r; [lra|]. rewrite bpow_IZR by lia. apply IZR_le. lia.
Qed.

Lemma mul_finite_spec mx ex my ey :
  B2R (S754_finite false mx ex) * B2R (S754_finite false my ey) <= bpow 970 ->
  approx (SFmul PyFloat.prec PyFloat.emax
            (S754_finite false mx ex) (S754_finite false my ey))
         (B2R (S754_finite false mx ex) * B2R (S754_finite false my ey)).
Proof.
  cbn [B2R]. rewrite !Rmult_1_l.
  assert (E : IZR (Z.pos mx) * bpow ex * (IZR (Z.pos my) * bpow ey)
              = IZR (Z.pos (mx * my)) * bpow (ex + ey)).
  { rewrite Pos2Z.inj_mul, mult_IZR, bpow_plus. ring. }
  rewrite E. intros Ht. unfold SFmul. change (xorb false false) with false.
  apply round_aux_spec; [lia | | intros _; reflexivity | | exact Ht].
  - unfold inv. rewrite plus_IZR. pose proof (bpow_gt_0 (ex + ey)). split; lra.
  - intros Hne. exfalso. apply Hne. reflexivity.
Qed.

Lemma approx_zero : approx (S754_zero false) 0.
Proof.
  split; [exact I|]. simpl. rewrite Rminus_diag, Rabs_R0.
  pose proof eps_pos. pose proof eta_pos. lra.
Qed.

(** *** The Python operations *)

Lemma of_int_ok n :
  (0 <= n)%Z -> IZR n <= bpow 970 ->
  exists f, PyFloat.of_int n = inr f /\ approx f (IZR n).
Proof.
  intros Hn Hb. pose proof (binary_normalize_spec n Hn Hb) as Ha.
  unfold PyFloat.of_int.
  destruct (binary_normalize PyFloat.prec PyFloat.emax n 0 false) as [s|s| |s m e];
    try (destruct Ha as [[] _]); eexists; split; (reflexivity || exact Ha).
Qed.

Lemma int_truediv_ok a b :
  (0 < a)%Z -> (0 < b)%Z -> IZR a / IZR b <= bpow 970 ->
  exists f, PyFloat.int_truediv a b = inr f /\ approx f (IZR a / IZR b).
Proof.
  intros Ha Hb Ht.
  destruct a as [|pa|pa]; [lia| |lia]. destruct b as [|pb|pb]; [lia| |lia].
  assert (E : forall p, B2R (S754_finite false p 0) = IZR (Z.pos p))
    by (intros p; simpl; change (bpow 0) with 1; ring).
  pose proof (div_finite_spec pa 0 pb 0) as Hd. rewrite !E in Hd.
  specialize (Hd Ht). unfold PyFloat.int_truediv. cbn [Z.ltb Z.compare Z.abs Z.to_pos].
  destruct (SFdiv PyFloat.prec PyFloat.emax (S754_finite false pa 0) (S754_finite false pb 0))
    as [s|s| |s m e];
    try (destruct Hd as [[] _]); eexists; split; (reflexivity || exact Hd).
Qed.

Lemma truediv_ok x y :
  fin_nonneg x -> fin_nonneg y -> 0 < B2R y -> B2R x / B2R y <= bpow 970 ->
  exists f, PyFloat.truediv x y = inr f /\ approx f (B2R x / B2R y).
Proof.
  intros Hx Hy Hy0 Ht.
  destruct y as [sy|sy| |sy my ey]; try (simpl in Hy0; lra).
  destruct sy; [contradiction|].
  destruct x as [sx|sx| |sx mx ex]; try contradiction; destruct sx; try contradiction.
  - exists (S754_zero false). split; [reflexivity|].
    simpl B2R. unfold Rdiv. rewrite Rmult_0_l. exact approx_zero.
  - eexists. split; [reflexivity|]. apply div_finite_spec. exact Ht.
Qed.

Lemma mul_ok x y :
  fin_nonneg x -> fin_nonneg y -> B2R x * B2R y <= bpow 970 ->
  exists f, PyFloat.mul x y = inr f /\ approx f (B2R x * B2R y).
Proof.
  intros Hx Hy Ht.
  destruct x as [sx|sx| |sx mx ex]; try contradiction; destruct sx; try contradiction;
  destruct y as [sy|sy| |sy my ey]; try contradiction; destruct sy; try contradiction.
  - exists (S754_zero false). split; [reflexivity|]. simpl B2R. rewrite Rmult_0_l.
    exact approx_zero.
  - exists (S754_zero false). split; [reflexivity|]. simpl B2R. rewrite Rmult_0_l.
    exact approx_zero.
  - exists (S754_zero false). split; [reflexivity|]. simpl B2R. rewrite Rmult_0_r.
    exact approx_zero.
  - eexists. split; [reflexivity|]. apply mul_finite_spec. exact Ht.
Qed.

Lemma round_shift_spec m k :
  (0 < k)%Z -> (0 <= m)%Z ->
  (0 <= PyFloat.round_shift m k)%Z /\
  (2 * Z.abs (PyFloat.round_shift m k * 2 ^ k - m) <= 2 ^ k)%Z.
Proof.
  intros Hk Hm. unfold PyFloat.round_shift.
  assert (Hd : (0 < 2 ^ k)%Z) by (apply Z.pow_pos_nonneg; lia).
  pose proof (Z.div_mod m (2 ^ k) ltac:(lia)) as Hdm.
  pose proof (Z.mod_pos_bound m (2 ^ k) Hd) as Hr.
  pose proof (Z.div_pos m (2 ^ k) Hm Hd) as Hq.
  set (d := (2 ^ k)%Z) in *. set (q := (m / d)%Z) in *. set (r := (m mod d)%Z) in *.
  destruct (Z.compare_spec (2 * r) d); [destruct (Z.even q)| |]; split; lia.
Qed.

Lemma round_ok f :
  fin_nonneg f ->
  exists z, PyFloat.round f = inr z /\ (0 <= z)%Z /\ Rabs (IZR z - B2R f) <= / 2.
Proof.
  intros Hf. destruct f as [s|s| |s m e]; try contradiction; destruct s; try contradiction.
  - exists 0%Z. split; [reflexivity|]. split; [lia|]. simpl.
    rewrite Rminus_diag, Rabs_R0. lra.
  - unfold PyFloat.round. destruct (Z.leb_spec 0 e) as [He|He].
    + eexists. split; [reflexivity|]. split; [pose proof (Z.pow_nonneg 2 e); lia|].
      simpl B2R. rewrite mult_IZR, <- bpow_IZR by exact He.
      replace (IZR (Z.pos m) * bpow e - 1 * IZR (Z.pos m) * bpow e) with 0 by ring.
      rewrite Rabs_R0. lra.
    + destruct (round_shift_spec (Z.pos m) (- e) ltac:(lia) ltac:(lia)) as [Hz Hb].
      eexists. split; [reflexivity|]. split; [exact Hz|].
      set (z := PyFloat.round_shift (Z.pos m) (- e)) in *.
      assert (Hd : bpow e = / IZR (2 ^ (- e))).
      { rewrite <- bpow_IZR by lia. rewrite bpow_opp, Rinv_inv. reflexivity. }
      assert (Hd0 : 0 < IZR (2 ^ (- e))) by (apply IZR_lt; apply Z.pow_pos_nonneg; lia).
      simpl B2R. rewrite Hd.
      replace (IZR z - 1 * IZR (Z.pos m) * / IZR (2 ^ (- e)))
        with (IZR (z * 2 ^ (- e) - Z.pos m) / IZR (2 ^ (- e)))
        by (rewrite minus_IZR, mult_IZR; field; lra).
      unfold Rdiv. rewrite Rabs_mult, (Rabs_pos_eq (/ _)) by (left; apply Rinv_0_lt_compat; lra).
      rewrite Rabs_Zabs.
      apply IZR_le in Hb. rewrite mult_IZR in Hb.
      apply (Rmult_le_reg_r (IZR (2 ^ (- e)))); [lra|].
      rewrite Rmult_assoc, Rinv_l by lra. lra.
Qed.

(** *** The round trip of one coordinate *)

Lemma eps_val : eps = / 1125899906842624.
Proof. unfold eps. change (-50)%Z with (Z.opp 50). rewrite bpow_opp, bpow_IZR by lia. reflexivity. Qed.

Lemma eta_small : 0 <= eta <= / 1152921504606846976.
Proof.
  split; [left; apply eta_pos|].
  replace (/ 1152921504606846976) with (bpow (-60)).
  - apply bpow_le. lia.
  - change (-60)%Z with (Z.opp 60). rewrite bpow_opp, bpow_IZR by lia. reflexivity.
Qed.

Lemma approx_le f t : approx f t -> 0 <= t -> B2R f <= 2 * t + 1.
Proof.
  intros [_ Ha] Ht. apply Rabs_le_iff in Ha. rewrite eps_val in Ha.
  pose proof eta_small. lra.
Qed.

Lemma Rabs_mult_pos a s : 0 < s -> Rabs a * s = Rabs (a * s).
Proof. intros Hs. rewrite Rabs_mult, (Rabs_pos_eq s) by lra. reflexivity. Qed.

(** The real-number core of the round trip [v -> round(v / s) -> round(r * s)]:
    each float operation within [eps * t + eta] of its exact value [t], each
    [round] within one half. *)
Lemma chain_real v s fv q r fr p z :
  0 <= v <= 4294967296 -> 0 < s <= 2 ->
  Rabs (fv - v) <= eps * v + eta -> 0 <= fv ->
  Rabs (q - fv / s) <= eps * (fv / s) + eta ->
  Rabs (r - q) <= / 2 ->
  Rabs (fr - r) <= eps * r + eta -> 0 <= fr ->
  Rabs (p - fr * s) <= eps * (fr * s) + eta ->
  Rabs (z - p) <= / 2 ->
  Rabs (z - v) < 2.
Proof.
  intros Hv Hs H1 Hfv H2 H3 H4 Hfr H5 H6.
  pose proof eta_small as Heta.
  assert (Hes : 0 <= eta * s <= 2 * eta) by (split; nra).
  apply (Rmult_le_compat_r s) in H2; [|lra].
  rewrite Rabs_mult_pos in H2 by lra.
  replace ((q - fv / s) * s) with (q * s - fv) in H2 by (field; lra).
  replace ((eps * (fv / s) + eta) * s) with (eps * fv + eta * s) in H2 by (field; lra).
  apply (Rmult_le_compat_r s) in H3; [|lra].
  rewrite Rabs_mult_pos in H3 by lra.
  replace ((r - q) * s) with (r * s - q * s) in H3 by ring.
  apply (Rmult_le_compat_r s) in H4; [|lra].
  rewrite Rabs_mult_pos in H4 by lra.
  replace ((fr - r) * s) with (fr * s - r * s) in H4 by ring.
  replace ((eps * r + eta) * s) with (eps * (r * s) + eta * s) in H4 by ring.
  rewrite eps_val in *.
  set (qs := q * s) in *. set (rs := r * s) in *. set (frs := fr * s) in *.
  set (es := eta * s) in *. clearbody qs rs frs es.
  apply Rabs_le_iff in H1. apply Rabs_le_iff in H2. apply Rabs_le_iff in H3.
  apply Rabs_le_iff in H4. apply Rabs_le_iff in H5. apply Rabs_le_iff in H6.
  apply Rabs_def1; lra.
Qed.

Lemma bpow_70_le : 1180591620717411303424 <= bpow 970.
Proof.
  replace 1180591620717411303424 with (bpow 70)
    by (rewrite bpow_IZR by lia; reflexivity).
  apply bpow_le. lia.
Qed.

Lemma approx_fin f t : approx f t -> fin_nonneg f.
Proof. intros [H _]. exact H. Qed.

(** A coordinate [0 <= v <= 2^32] divided by a factor [s] in [2^-23, 2] and
    rounded, then multiplied by [s] and rounded, comes back within one unit. *)
Lemma component_roundtrip v sf :
  (0 <= v <= 2 ^ 32)%Z -> fin_nonneg sf -> bpow (-23) <= B2R sf <= 2 ->
  exists q r p z,
    PyFloat.int_div_float v sf = inr q /\ PyFloat.round q = inr r /\
    PyFloat.int_mul_float r sf = inr p /\ PyFloat.round p = inr z /\
    (Z.abs (z - v) <= 1)%Z.
Proof.
  intros Hv Hsf Hs.
  pose proof (bpow_gt_0 (-23)) as H23. pose proof bpow_70_le as H70.
  assert (Hi23 : / B2R sf <= 8388608).
  { replace 8388608 with (/ bpow (-23))
      by (change (-23)%Z with (Z.opp 23); rewrite bpow_opp, Rinv_inv, bpow_IZR by lia; reflexivity).
    apply Rinv_le_contravar; lra. }
  assert (Hvr : 0 <= IZR v <= 4294967296)
    by (split; apply IZR_le; [lia | change 4294967296%Z with (2 ^ 32)%Z; lia]).
  destruct (of_int_ok v ltac:(lia) ltac:(lra)) as [fv [Efv Afv]].
  pose proof (approx_le _ _ Afv ltac:(lra)) as Lfv.
  pose proof (B2R_nonneg _ (approx_fin _ _ Afv)) as Pfv.
  assert (Hq0 : B2R fv / B2R sf <= 72057594046316544).
  { unfold Rdiv. apply (Rle_trans _ (B2R fv * 8388608)); [|lra].
    apply Rmult_le_compat_l; lra. }
  assert (Hq1 : 0 <= B2R fv / B2R sf)
    by (apply Rmult_le_pos; [lra | left; apply Rinv_0_lt_compat; lra]).
  destruct (truediv_ok fv sf (approx_fin _ _ Afv) Hsf ltac:(lra) ltac:(lra))
    as [q [Eq Aq]].
  pose proof (approx_le _ _ Aq Hq1) as Lq.
  destruct (round_ok q (approx_fin _ _ Aq)) as [r [Er [Hr0 Hr]]].
  assert (Hrr : 0 <= IZR r <= 144115188092633090).
  { split; [apply IZR_le; lia|]. apply Rabs_le_iff in Hr. lra. }
  destruct (of_int_ok r Hr0 ltac:(lra)) as [fr [Efr Afr]].
  pose proof (approx_le _ _ Afr ltac:(lra)) as Lfr.
  pose proof (B2R_nonneg _ (approx_fin _ _ Afr)) as Pfr.
  destruct (mul_ok fr sf (approx_fin _ _ Afr) Hsf ltac:(nra)) as [p [Ep Ap]].
  destruct (round_ok p (approx_fin _ _ Ap)) as [z [Ez [Hz0 Hz]]].
  exists q, r, p, z.
  split; [unfold PyFloat.int_div_float; rewrite Efv; exact Eq|].
  split; [exact Er|].
  split; [unfold PyFloat.int_mul_float; rewrite Efr; exact Ep|].
  split; [exact Ez|].
  assert (Hc : Rabs (IZR z - IZR v) < 2).
  { apply (chain_real (IZR v) (B2R sf) (B2R fv) (B2R q) (IZR r) (B2R fr) (B2R p) (IZR z));
      try lra; apply Afv || apply Aq || apply Afr || apply Ap. }
  rewrite <- minus_IZR in Hc. apply Rabs_def2 in Hc. destruct Hc as [Hc1 Hc2].
  assert (-2 < z - v)%Z by (apply lt_IZR; simpl IZR; lra).
  assert (z - v < 2)%Z by (apply lt_IZR; simpl IZR; lra).
  lia.
Qed.

(** *** The two scaling factors *)

Lemma eta_tiny :
  eta <= / 1606938044258990275541962092341162602522202993782792835301376.
Proof.
  replace (/ 1606938044258990275541962092341162602522202993782792835301376)
    with (bpow (-200))
    by (change (-200)%Z with (Z.opp 200); rewrite bpow_opp, bpow_IZR by lia;
        reflexivity).
  apply bpow_le. lia.
Qed.

(** Relative error of one operation ([2^-49]) and of the chains below ([2^-46]). *)
Definition erel : R := / 562949953421312.
Definition krel : R := / 70368744177664.

Lemma approx_rel f t :
  approx f t -> / 1099511627776 <= t -> (1 - erel) * t <= B2R f <= (1 + erel) * t.
Proof.
  intros [_ H] Ht. apply Rabs_le_iff in H. rewrite eps_val in H.
  pose proof eta_tiny. pose proof eta_pos. unfold erel. lra.
Qed.

Lemma div_rel a b ta tb la ua lb ub :
  0 < ta -> 0 < tb -> 0 <= la -> 0 < lb ->
  la * ta <= a <= ua * ta -> lb * tb <= b <= ub * tb ->
  la / ub * (ta / tb) <= a / b <= ua / lb * (ta / tb).
Proof.
  intros Hta Htb Hla Hlb Ha Hb.
  assert (0 < lb * tb) by (apply Rmult_lt_0_compat; lra).
  assert (Hub : 0 < ub) by nra.
  assert (0 <= la * ta) by (apply Rmult_le_pos; lra).
  split.
  - replace (la / ub * (ta / tb)) with ((la * ta) / (ub * tb)) by (field; lra).
    apply div_le_compat; lra.
  - replace (ua / lb * (ta / tb)) with ((ua * ta) / (lb * tb)) by (field; lra).
    apply div_le_compat; lra.
Qed.

Lemma IZR_range n : (1 <= n <= 2 ^ 32)%Z -> 1 <= IZR n <= 4294967296.
Proof.
  intros Hn. split; apply IZR_le; [lia | change 4294967296%Z with (2 ^ 32)%Z; lia].
Qed.

(** For a resolution of at most [2^32] in both directions, the computations
    of [scale_coordinates] succeed and both factors lie within a relative
    [2^-46] of [IMAGE_MAX_WIDTH / width]. *)
Lemma factors_ok W H :
  (1 <= W <= 2 ^ 32)%Z -> (1 <= H <= 2 ^ 32)%Z ->
  exists ratio th sx sy,
    PyFloat.int_truediv W H = inr ratio /\
    PyFloat.int_div_float IMAGE_MAX_WIDTH ratio = inr th /\
    PyFloat.int_truediv IMAGE_MAX_WIDTH W = inr sx /\
    PyFloat.float_div_int th H = inr sy /\
    fin_nonneg sx /\ fin_nonneg sy /\
    (1 - krel) * (1200 / IZR W) <= B2R sx <= (1 + krel) * (1200 / IZR W) /\
    (1 - krel) * (1200 / IZR W) <= B2R sy <= (1 + krel) * (1200 / IZR W).
Proof.
  intros HW HH.
  pose proof (IZR_range W HW) as RW. pose proof (IZR_range H HH) as RH.
  set (Wr := IZR W) in *. set (Hr := IZR H) in *.
  pose proof bpow_70_le as H70.
  assert (HWH : / 4294967296 <= Wr / Hr <= 4294967296).
  { split.
    - replace (/ 4294967296) with (1 / 4294967296) by field.
      apply div_le_compat; lra.
    - replace 4294967296 with (4294967296 / 1) by field.
      apply div_le_compat; lra. }
  destruct (int_truediv_ok W H ltac:(lia) ltac:(lia) ltac:(fold Wr Hr; lra))
    as [ratio [Eratio Aratio]].
  pose proof (approx_rel _ _ Aratio ltac:(fold Wr Hr; lra)) as Rratio.
  fold Wr Hr in Rratio.
  destruct (of_int_ok 1200 ltac:(lia) ltac:(lra)) as [f12 [E12 A12]].
  pose proof (approx_rel _ _ A12 ltac:(lra)) as R12.
  assert (Hk : 1200 / 4294967296 <= 1200 / (Wr / Hr) <= 1200 * 4294967296).
  { split.
    - apply div_le_compat; lra.
    - replace (1200 * 4294967296) with (1200 / / 4294967296) by field.
      apply div_le_compat; lra. }
  pose proof (div_rel (B2R f12) (B2R ratio) 1200 (Wr / Hr)
                (1 - erel) (1 + erel) (1 - erel) (1 + erel)
                ltac:(lra) ltac:(lra) ltac:(unfold erel; lra) ltac:(unfold erel; lra)
                R12 Rratio) as D1.
  set (Kt := 1200 / (Wr / Hr)) in *.
  destruct (truediv_ok f12 ratio (approx_fin _ _ A12) (approx_fin _ _ Aratio)
              ltac:(unfold erel in Rratio; lra) ltac:(unfold erel in D1; lra))
    as [th [Eth Ath]].
  pose proof (approx_rel _ _ Ath ltac:(unfold erel in D1; lra)) as Rth.
  destruct (of_int_ok H ltac:(lia) ltac:(fold Hr; lra)) as [fH [EfH AfH]].
  pose proof (approx_rel _ _ AfH ltac:(fold Hr; lra)) as RfH. fold Hr in RfH.
  assert (Rth' : (1 - erel) * ((1 - erel) / (1 + erel)) * Kt <= B2R th
                 <= (1 + erel) * ((1 + erel) / (1 - erel)) * Kt)
    by (unfold erel in *; lra).
  pose proof (div_rel (B2R th) (B2R fH) Kt Hr
                ((1 - erel) * ((1 - erel) / (1 + erel)))
                ((1 + erel) * ((1 + erel) / (1 - erel)))
                (1 - erel) (1 + erel)
                ltac:(lra) ltac:(lra) ltac:(unfold erel; lra) ltac:(unfold erel; lra)
                Rth' RfH) as D2.
  assert (EK : Kt / Hr = 1200 / Wr) by (unfold Kt; field; lra).
  rewrite EK in D2.
  assert (HK : 1200 / 4294967296 <= 1200 / Wr <= 1200).
  { split; [apply div_le_compat; lra|].
    replace 1200 with (1200 / 1) at 2 by field. apply div_le_compat; lra. }
  destruct (truediv_ok th fH (approx_fin _ _ Ath) (approx_fin _ _ AfH)
              ltac:(unfold erel in RfH; lra) ltac:(unfold erel in D2; lra))
    as [sy [Esy Asy]].
  pose proof (approx_rel _ _ Asy ltac:(unfold erel in D2; lra)) as Rsy.
  destruct (int_truediv_ok 1200 W ltac:(lia) ltac:(lia) ltac:(fold Wr; lra))
    as [sx [Esx Asx]].
  pose proof (approx_rel _ _ Asx ltac:(fold Wr; lra)) as Rsx. fold Wr in Rsx.
  exists ratio, th, sx, sy.
  split; [exact Eratio|].
  split; [unfold PyFloat.int_div_float, IMAGE_MAX_WIDTH; rewrite E12; exact Eth|].
  split; [exact Esx|].
  split; [unfold PyFloat.float_div_int; rewrite EfH; exact Esy|].
  split; [exact (approx_fin _ _ Asx)|].
  split; [exact (approx_fin _ _ Asy)|].
  unfold krel, erel in *. split; lra.
Qed.

(** *** Consequences for [scale_coordinates] and [options] *)

Lemma bpow_m23 : bpow (-23) = / 8388608.
Proof. change (-23)%Z with (Z.opp 23). rewrite bpow_opp, bpow_IZR by lia. reflexivity. Qed.

(** [round(v / s)] succeeds for an int [0 <= v <= 2^32] and [s >= 2^-23]. *)
Lemma div_round_ok v sf :
  (0 <= v <= 2 ^ 32)%Z -> fin_nonneg sf -> bpow (-23) <= B2R sf ->
  exists q r, PyFloat.int_div_float v sf = inr q /\ PyFloat.round q = inr r.
Proof.
  intros Hv Hsf Hs. rewrite bpow_m23 in Hs.
  pose proof bpow_70_le as H70.
  assert (Hi23 : / B2R sf <= 8388608).
  { replace 8388608 with (/ / 8388608) by field. apply Rinv_le_contravar; lra. }
  assert (Hvr : 0 <= IZR v <= 4294967296)
    by (split; apply IZR_le; [lia | change 4294967296%Z with (2 ^ 32)%Z; lia]).
  destruct (of_int_ok v ltac:(lia) ltac:(lra)) as [fv [Efv Afv]].
  pose proof (approx_le _ _ Afv ltac:(lra)) as Lfv.
  pose proof (B2R_nonneg _ (approx_fin _ _ Afv)) as Pfv.
  assert (Hq0 : B2R fv / B2R sf <= 72057594046316544).
  { unfold Rdiv. apply (Rle_trans _ (B2R fv * 8388608)); [|lra].
    apply Rmult_le_compat_l; lra. }
  destruct (truediv_ok fv sf (approx_fin _ _ Afv) Hsf ltac:(lra) ltac:(lra))
    as [q [Eq Aq]].
  destruct (round_ok q (approx_fin _ _ Aq)) as [r [Er _]].
  exists q, r. split; [unfold PyFloat.int_div_float; rewrite Efv; exact Eq | exact Er].
Qed.

(** [round(v * s)] succeeds for an int [0 <= v <= 2^32] and [s <= 2^11]. *)
Lemma mul_round_ok v sf :
  (0 <= v <= 2 ^ 32)%Z -> fin_nonneg sf -> B2R sf <= 2048 ->
  exists p r, PyFloat.int_mul_float v sf = inr p /\ PyFloat.round p = inr r.
Proof.
  intros Hv Hsf Hs.
  pose proof bpow_70_le as H70. pose proof (B2R_nonneg _ Hsf) as Ps.
  assert (Hvr : 0 <= IZR v <= 4294967296)
    by (split; apply IZR_le; [lia | change 4294967296%Z with (2 ^ 32)%Z; lia]).
  destruct (of_int_ok v ltac:(lia) ltac:(lra)) as [fv [Efv Afv]].
  pose proof (approx_le _ _ Afv ltac:(lra)) as Lfv.
  pose proof (B2R_nonneg _ (approx_fin _ _ Afv)) as Pfv.
  destruct (mul_ok fv sf (approx_fin _ _ Afv) Hsf ltac:(nra)) as [p [Ep Ap]].
  destruct (round_ok p (approx_fin _ _ Ap)) as [r [Er _]].
  exists p, r. split; [unfold PyFloat.int_mul_float; rewrite Efv; exact Ep | exact Er].
Qed.

(** [round(W * s)] is [IMAGE_MAX_WIDTH] when [s] is within [2^-46] of
    [IMAGE_MAX_WIDTH / W]. *)
Lemma mul_round_width W sf :
  (1 <= W <= 2 ^ 32)%Z -> fin_nonneg sf ->
  (1 - krel) * (1200 / IZR W) <= B2R sf <= (1 + krel) * (1200 / IZR W) ->
  exists p, PyFloat.int_mul_float W sf = inr p /\ PyFloat.round p = inr 1200%Z.
Proof.
  intros HW Hsf Hs.
  pose proof (IZR_range W HW) as RW. set (Wr := IZR W) in *.
  pose proof bpow_70_le as H70.
  assert (HK : 0 < 1200 / Wr <= 1200).
  { split; [apply Rdiv_lt_0_compat; lra|].
    replace 1200 with (1200 / 1) at 2 by field. apply div_le_compat; lra. }
  assert (EK : Wr * (1200 / Wr) = 1200) by (field; lra).
  destruct (of_int_ok W ltac:(lia) ltac:(fold Wr; lra)) as [fW [EfW AfW]].
  pose proof (approx_rel _ _ AfW ltac:(fold Wr; lra)) as RfW. fold Wr in RfW.
  unfold krel, erel in *.
  assert (Lo : (1 - / 562949953421312) * Wr * ((1 - / 70368744177664) * (1200 / Wr))
               <= B2R fW * B2R sf).
  { apply Rmult_le_compat; try lra; apply Rmult_le_pos; lra. }
  assert (Hi : B2R fW * B2R sf
               <= (1 + / 562949953421312) * Wr * ((1 + / 70368744177664) * (1200 / Wr))).
  { pose proof (B2R_nonneg _ (approx_fin _ _ AfW)). pose proof (B2R_nonneg _ Hsf).
    apply Rmult_le_compat; lra. }
  replace ((1 - / 562949953421312) * Wr * ((1 - / 70368744177664) * (1200 / Wr)))
    with ((1 - / 562949953421312) * (1 - / 70368744177664) * (Wr * (1200 / Wr)))
    in Lo by ring.
  replace ((1 + / 562949953421312) * Wr * ((1 + / 70368744177664) * (1200 / Wr)))
    with ((1 + / 562949953421312) * (1 + / 70368744177664) * (Wr * (1200 / Wr)))
    in Hi by ring.
  rewrite EK in Lo, Hi.
  destruct (mul_ok fW sf (approx_fin _ _ AfW) Hsf ltac:(lra)) as [p [Ep Ap]].
  pose proof (approx_rel _ _ Ap ltac:(lra)) as Rp. unfold erel in Rp.
  destruct (round_ok p (approx_fin _ _ Ap)) as [r [Er [_ Hr]]].
  exists p. split; [unfold PyFloat.int_mul_float; rewrite EfW; exact Ep|].
  rewrite Er. apply Rabs_le_iff in Hr.
  assert (-1 < r - 1200 < 1)%Z
    by (split; apply lt_IZR; rewrite minus_IZR; simpl IZR; lra).
  replace r with 1200%Z by lia. reflexivity.
Qed.

(** *** Accuracy of one scaled coordinate *)

Lemma mul_chain_real v K s fv p r :
  (0 <= v <= 4294967296 -> 0 < K <= 1200 ->
   (1 - krel) * K <= s <= (1 + krel) * K ->
   Rabs (fv - v) <= eps * v + eta -> 0 <= fv ->
   Rabs (p - fv * s) <= eps * (fv * s) + eta ->
   Rabs (r - p) <= / 2 ->
   Rabs (r - v * K) < 1)%R.
Proof.
  intros Hv HK Hs H1 Hfv H2 H3.
  pose proof eta_small as Heta. rewrite eps_val in *. unfold krel in *.
  apply Rabs_le_iff in H1. apply Rabs_le_iff in H2. apply Rabs_le_iff in H3.
  assert (Hs0 : (0 <= s <= 1201)%R) by lra.
  assert (A : (Rabs (fv * s - v * s) <= (/ 1125899906842624 * v + eta) * s)%R).
  { replace (fv * s - v * s)%R with ((fv - v) * s)%R by ring.
    rewrite Rabs_mult, (Rabs_pos_eq s) by lra.
    apply Rmult_le_compat_r; [lra|]. apply Rabs_le_iff. lra. }
  apply Rabs_le_iff in A.
  assert (B1 : (v * s - v * K <= v * (/ 70368744177664 * K))%R).
  { replace (v * s - v * K)%R with (v * (s - K))%R by ring.
    apply Rmult_le_compat_l; lra. }
  assert (B2 : (- (v * (/ 70368744177664 * K)) <= v * s - v * K)%R).
  { replace (v * s - v * K)%R with (v * (s - K))%R by ring.
    replace (- (v * (/ 70368744177664 * K)))%R with (v * (- (/ 70368744177664 * K)))%R
      by ring.
    apply Rmult_le_compat_l; lra. }
  assert (B3 : (v * (/ 70368744177664 * K) <= 4294967296 * (/ 70368744177664 * 1200))%R).
  { apply Rmult_le_compat; try lra. }
  assert (C : (fv * s <= 8589934593 * 1201)%R).
  { apply Rmult_le_compat; lra. }
  assert (E : ((/ 1125899906842624 * v + eta) * s
               <= (/ 1125899906842624 * 4294967296 + / 1152921504606846976) * 1201)%R).
  { apply Rmult_le_compat; try lra. }
  assert (Hfs : (0 <= fv * s)%R) by (apply Rmult_le_pos; lra).
  apply Rabs_def1; lra.
Qed.

Lemma mul_round_close v sf K :
  (0 <= v <= 2 ^ 32)%Z -> fin_nonneg sf -> (0 < K <= 1200)%R ->
  ((1 - krel) * K <= B2R sf <= (1 + krel) * K)%R ->
  exists p r, PyFloat.int_mul_float v sf = inr p /\ PyFloat.round p = inr r /\
    (0 <= r)%Z /\ (Rabs (IZR r - IZR v * K) < 1)%R.
Proof.
  intros Hv Hsf HK Hs.
  pose proof bpow_70_le as H70.
  assert (Hvr : (0 <= IZR v <= 4294967296)%R)
    by (split; apply IZR_le; [lia | change 4294967296%Z with (2 ^ 32)%Z; lia]).
  destruct (of_int_ok v ltac:(lia) ltac:(lra)) as [fv [Efv Afv]].
  pose proof (approx_le _ _ Afv ltac:(lra)) as Lfv.
  pose proof (B2R_nonneg _ (approx_fin _ _ Afv)) as Pfv.
  assert (Hs1 : (0 <= B2R sf <= 1201)%R) by (unfold krel in Hs; lra).
  assert (Hm : (B2R fv * B2R sf <= 8589934593 * 1201)%R)
    by (apply Rmult_le_compat; lra).
  destruct (mul_ok fv sf (approx_fin _ _ Afv) Hsf ltac:(lra)) as [p [Ep Ap]].
  destruct (round_ok p (approx_fin _ _ Ap)) as [r [Er [Hr0 Hr]]].
  exists p, r. split; [unfold PyFloat.int_mul_float; rewrite Efv; exact Ep|].
  split; [exact Er|]. split; [exact Hr0|].
  destruct Afv as [_ Afv]. destruct Ap as [_ Ap].
  exact (mul_chain_real _ _ _ _ _ _ Hvr HK Hs Afv Pfv Ap Hr).
Qed.

End FloatErr.

(** ** Auxiliary lemmas about the tool *)

Lemma scaling_factors_bounds self :
  (1 <= width self <= 2 ^ 32) -> (1 <= height self <= 2 ^ 32) ->
  exists sx sy,
    scaling_factors self = inr (sx, sy) /\
    FloatErr.fin_nonneg sx /\ FloatErr.fin_nonneg sy /\
    ((1 - FloatErr.krel) * (1200 / IZR (width self)) <= FloatErr.B2R sx
       <= (1 + FloatErr.krel) * (1200 / IZR (width self)))%R /\
    ((1 - FloatErr.krel) * (1200 / IZR (width self)) <= FloatErr.B2R sy
       <= (1 + FloatErr.krel) * (1200 / IZR (width self)))%R.
Proof.
  intros HW HH.
  destruct (FloatErr.factors_ok _ _ HW HH)
    as (ratio & th & sx & sy & E1 & E2 & E3 & E4 & Hx & Hy & Bx & By).
  exists sx, sy. split; [|tauto].
  unfold scaling_factors. rewrite E1. cbn [rbind]. rewrite E2. cbn [rbind].
  rewrite E3. cbn [rbind]. rewrite E4. reflexivity.
Qed.

(** For [1200 < W <= 2^32] both factors lie in [[2^-23, 2]]. *)
Lemma factor_range W s :
  (IMAGE_MAX_WIDTH < W <= 2 ^ 32) ->
  ((1 - FloatErr.krel) * (1200 / IZR W) <= FloatErr.B2R s
     <= (1 + FloatErr.krel) * (1200 / IZR W))%R ->
  (FloatErr.bpow (-23) <= FloatErr.B2R s <= 2)%R.
Proof.
  unfold IMAGE_MAX_WIDTH. intros HW Hs. rewrite FloatErr.bpow_m23.
  assert (RW : (1200 <= IZR W <= 4294967296)%R)
    by (split; apply IZR_le; [lia | change 4294967296 with (2 ^ 32); lia]).
  assert (HK : (1200 / 4294967296 <= 1200 / IZR W <= 1)%R).
  { split; [apply FloatErr.div_le_compat; lra|].
    replace 1%R with (1200 / 1200)%R by field. apply FloatErr.div_le_compat; lra. }
  unfold FloatErr.krel in Hs. lra.
Qed.

Lemma in_list_false a l : ~ In a l -> in_list a l = false.
Proof.
  intros H. unfold in_list. apply Bool.not_true_iff_false. intros E.
  apply existsb_exists in E. destruct E as [b [Hb Eb]].
  apply String.eqb_eq in Eb. subst b. contradiction.
Qed.

Lemma gtb_false a b : a <= b -> (a >? b) = false.
Proof. intros H. rewrite Z.gtb_ltb. apply Z.ltb_ge. exact H. Qed.

(** [s.split(sep)] never returns an empty list. *)
Lemma split_not_nil sep s : PyStr.split sep s <> [].
Proof.
  destruct s as [|c s']; simpl; [discriminate|].
  destruct (Ascii.eqb c sep); [discriminate|].
  destruct (PyStr.split sep s'); discriminate.
Qed.

Lemma concat_cons_char sep a r rs :
  String.concat sep (String a r :: rs) = String a (String.concat sep (r :: rs)).
Proof. destruct rs; reflexivity. Qed.

(** [sep.join(s.split(sep)) == s]. *)
Lemma split_concat sep s :
  String.concat (String sep EmptyString) (PyStr.split sep s) = s.
Proof.
  induction s as [|c s' IH]; [reflexivity|]. simpl.
  destruct (Ascii.eqb c sep) eqn:E.
  - apply Ascii.eqb_eq in E. subst c.
    destruct (PyStr.split sep s') as [|r rs] eqn:Es;
      [exfalso; exact (split_not_nil sep s' Es)|].
    simpl. rewrite <- IH. reflexivity.
  - destruct (PyStr.split sep s') as [|r rs] eqn:Es;
      [exfalso; exact (split_not_nil sep s' Es)|].
    rewrite concat_cons_char, IH. reflexivity.
Qed.

(** No piece of [s.split(sep)] contains [sep]. *)
Lemma split_pieces sep s :
  Forall (fun p => PyStr.contains sep p = false) (PyStr.split sep s).
Proof.
  induction s as [|c s' IH]; simpl; [repeat constructor|].
  destruct (Ascii.eqb c sep) eqn:E; [constructor; [reflexivity | exact IH]|].
  destruct (PyStr.split sep s') as [|r rs]; inversion IH as [|r' rs' Hr Hrs]; subst.
  - repeat constructor. simpl. rewrite E. reflexivity.
  - constructor; [simpl; rewrite E, Hr; reflexivity | exact Hrs].
Qed.

(** A string containing [sep] splits into at least two pieces. *)
Lemma split_length sep s :
  PyStr.contains sep s = true -> (2 <= List.length (PyStr.split sep s))%nat.
Proof.
  induction s as [|c s' IH]; simpl; [discriminate|].
  intros H. pose proof (split_not_nil sep s') as Hn.
  destruct (Ascii.eqb c sep) eqn:E.
  - destruct (PyStr.split sep s'); [congruence | simpl; lia].
  - simpl in H. specialize (IH H).
    destruct (PyStr.split sep s'); [congruence | simpl in *; lia].
Qed.

(** The errors of the float operations, of [int_value] and of the scaling
    factors are never a [ToolError]. *)
Lemma rbind_not_tool {A B} (r : res A) (k : A -> res B) m :
  (forall m', r <> inl (ToolError m')) -> (forall a, k a <> inl (ToolError m)) ->
  rbind r k <> inl (ToolError m).
Proof.
  intros Hr Hk. destruct r as [e | a]; simpl; [|apply Hk].
  destruct e; try discriminate. exfalso. exact (Hr _ eq_refl).
Qed.

Lemma of_int_not_tool n m : PyFloat.of_int n <> inl (ToolError m).
Proof. unfold PyFloat.of_int. destruct (binary_normalize _ _ _ _ _); discriminate. Qed.

Lemma truediv_not_tool a b m : PyFloat.truediv a b <> inl (ToolError m).
Proof. unfold PyFloat.truediv. destruct (PyFloat.is_zero b); discriminate. Qed.

Lemma int_truediv_not_tool a b m : PyFloat.int_truediv a b <> inl (ToolError m).
Proof.
  unfold PyFloat.int_truediv.
  destruct b; [discriminate | |]; destruct a; try discriminate;
    destruct (SFdiv _ _ _ _); discriminate.
Qed.

Lemma round_not_tool f m : PyFloat.round f <> inl (ToolError m).
Proof. destruct f; discriminate. Qed.

Lemma int_value_not_tool v m : int_value v <> inl (ToolError m).
Proof. destruct v; discriminate. Qed.

Lemma scaling_factors_not_tool self m : scaling_factors self <> inl (ToolError m).
Proof.
  unfold scaling_factors.
  apply rbind_not_tool; [intros; apply int_truediv_not_tool | intros ratio].
  apply rbind_not_tool;
    [intros; apply rbind_not_tool; [intros; apply of_int_not_tool | intros; apply truediv_not_tool]
    | intros th].
  apply rbind_not_tool; [intros; apply int_truediv_not_tool | intros fx].
  apply rbind_not_tool;
    [intros; apply rbind_not_tool; [intros; apply of_int_not_tool | intros; apply truediv_not_tool]
    | intros fy].
  discriminate.
Qed.

(** With scaling enabled, a screen position is scaled down to non-negative
    ints close to [x * 1200 / width]. *)
Lemma computer_scale_close self x y :
  scaling_enabled self = true ->
  1 <= width self <= 2 ^ 32 -> 1 <= height self <= 2 ^ 32 ->
  0 <= x <= 2 ^ 32 -> 0 <= y <= 2 ^ 32 ->
  exists rx ry,
    scale_coordinates self COMPUTER (PyInt x) (PyInt y) = inr (PyInt rx, PyInt ry) /\
    0 <= rx /\ 0 <= ry /\
    (Rabs (IZR rx - IZR x * (1200 / IZR (width self))) < 1)%R /\
    (Rabs (IZR ry - IZR y * (1200 / IZR (width self))) < 1)%R.
Proof.
  intros Hen HW HH Hx Hy.
  destruct (scaling_factors_bounds self HW HH) as (sx & sy & Ef & Fx & Fy & Bx & By).
  assert (RW : (1 <= IZR (width self))%R) by (apply IZR_le; lia).
  assert (HK : (0 < 1200 / IZR (width self) <= 1200)%R).
  { split; [apply Rdiv_lt_0_compat; lra|].
    replace 1200%R with (1200 / 1)%R at 2 by field. apply FloatErr.div_le_compat; lra. }
  destruct (FloatErr.mul_round_close x sx _ Hx Fx HK Bx) as (px & rx & Epx & Erx & Hrx & Dx).
  destruct (FloatErr.mul_round_close y sy _ Hy Fy HK By) as (py & ry & Epy & Ery & Hry & Dy).
  exists rx, ry. split; [|tauto].
  unfold scale_coordinates. rewrite Hen, Ef. cbn [negb rbind int_value].
  rewrite Epx. cbn [rbind]. rewrite Erx. cbn [rbind].
  rewrite Epy. cbn [rbind]. rewrite Ery. reflexivity.
Qed.

(** The initial machine of the examples. *)
Definition world0 : world :=
  {| pointer := (1000, 500); uuid_count := 0; files := []; events := [] |}.

Definition hex0 (n : nat) : string := "00000000000000000000000000000000".

(** ** The claims *)

(** C1 (amended).  For a screen with [IMAGE_MAX_WIDTH < width <= 2^32] and
    [1 <= height <= 2^32], every API coordinate [(x, y)] with
    [0 <= x <= width] and [0 <= y <= height] converted with source [API] and
    the result converted back with source [COMPUTER] gives a pair each of
    whose components is within one pixel of the original. *)
Theorem api_computer_round_trip (self : ComputerTool) (x y : Z) :
  scaling_enabled self = true ->
  IMAGE_MAX_WIDTH < width self <= 2 ^ 32 -> 1 <= height self <= 2 ^ 32 ->
  0 <= x <= width self -> 0 <= y <= height self ->
  exists x' y' x'' y'',
    scale_coordinates self API (PyInt x) (PyInt y) = inr (PyInt x', PyInt y') /\
    scale_coordinates self COMPUTER (PyInt x') (PyInt y') = inr (PyInt x'', PyInt y'') /\
    Z.abs (x'' - x) <= 1 /\ Z.abs (y'' - y) <= 1.
Proof.
  intros Hen HW HH Hx Hy.
  destruct (scaling_factors_bounds self ltac:(unfold IMAGE_MAX_WIDTH in HW; lia) HH)
    as (sx & sy & Ef & Fx & Fy & Bx & By).
  assert (HWx : 1 <= width self <= 2 ^ 32) by (unfold IMAGE_MAX_WIDTH in HW; lia).
  pose proof (factor_range _ _ HW Bx) as Rx.
  pose proof (factor_range _ _ HW By) as Ry.
  destruct (FloatErr.component_roundtrip x sx ltac:(lia) Fx Rx)
    as (qx & rx & px & zx & Eqx & Erx & Epx & Ezx & Dx).
  destruct (FloatErr.component_roundtrip y sy ltac:(lia) Fy Ry)
    as (qy & ry & py & zy & Eqy & Ery & Epy & Ezy & Dy).
  exists rx, ry, zx, zy.
  unfold scale_coordinates. rewrite Hen, Ef. cbn [negb rbind int_value].
  rewrite (gtb_false x), (gtb_false y) by lia. cbn [orb].
  rewrite Eqx. cbn [rbind]. rewrite Erx. cbn [rbind].
  rewrite Eqy. cbn [rbind]. rewrite Ery. cbn [rbind].
  rewrite Epx. cbn [rbind]. rewrite Ezx. cbn [rbind].
  rewrite Epy. cbn [rbind]. rewrite Ezy. cbn [rbind].
  auto.
Qed.

Lemma api_computer_round_trip_witness :
  exists x' y' x'' y'',
    scale_coordinates default_tool API (PyInt 1920) (PyInt 1080) = inr (PyInt x', PyInt y') /\
    scale_coordinates default_tool COMPUTER (PyInt x') (PyInt y') = inr (PyInt x'', PyInt y'') /\
    Z.abs (x'' - 1920) <= 1 /\ Z.abs (y'' - 1080) <= 1.
Proof.
  apply (api_computer_round_trip default_tool 1920 1080);
    unfold default_tool, IMAGE_MAX_WIDTH; simpl; (reflexivity || lia).
Defined.

(** C1 fails for a screen [10^16 + 1] pixels wide: the API coordinate
    [x = width] comes back as [width - 3]. *)
Lemma api_computer_round_trip_off_by_3 :
  scale_coordinates (tool_wh 10000000000000001 1) API
    (PyInt 10000000000000001) (PyInt 0)
  = inr (PyInt 83333333333333329126323388416, PyInt 0) /\
  scale_coordinates (tool_wh 10000000000000001 1) COMPUTER
    (PyInt 83333333333333329126323388416) (PyInt 0)
  = inr (PyInt 9999999999999998, PyInt 0).
Proof. split; vm_compute; reflexivity. Qed.

(** C2 (amended).  For a screen with [1 <= width, height <= 2^32] and
    non-negative int coordinates [(x, y)], the conversion with source [API]
    fails with the out-of-bounds error exactly when [x] exceeds the screen's
    own width or [y] its own height; otherwise it succeeds and returns
    [(round(x / sx), round(y / sy))] for the two scaling factors. *)
Theorem api_bounds_check (self : ComputerTool) (x y : Z) :
  scaling_enabled self = true ->
  1 <= width self <= 2 ^ 32 -> 1 <= height self <= 2 ^ 32 ->
  0 <= x -> 0 <= y ->
  exists sx sy,
    scaling_factors self = inr (sx, sy) /\
    (x > width self \/ y > height self ->
     scale_coordinates self API (PyInt x) (PyInt y)
     = inl (ToolError [Lit "Coordinates "; Val (PyInt x); Lit ", "; Val (PyInt y);
                       Lit " are out of bounds"])) /\
    (x <= width self -> y <= height self ->
     exists qx rx qy ry,
       PyFloat.int_div_float x sx = inr qx /\ PyFloat.round qx = inr rx /\
       PyFloat.int_div_float y sy = inr qy /\ PyFloat.round qy = inr ry /\
       scale_coordinates self API (PyInt x) (PyInt y) = inr (PyInt rx, PyInt ry)).
Proof.
  intros Hen HW HH Hx Hy.
  destruct (scaling_factors_bounds self HW HH) as (sx & sy & Ef & Fx & Fy & Bx & By).
  assert (RW : (1 <= IZR (width self) <= 4294967296)%R)
    by (split; apply IZR_le; [lia | change 4294967296 with (2 ^ 32); lia]).
  assert (HK : (1200 / 4294967296 <= 1200 / IZR (width self))%R)
    by (apply FloatErr.div_le_compat; lra).
  assert (Lx : (FloatErr.bpow (-23) <= FloatErr.B2R sx)%R)
    by (rewrite FloatErr.bpow_m23; unfold FloatErr.krel in Bx; lra).
  assert (Ly : (FloatErr.bpow (-23) <= FloatErr.B2R sy)%R)
    by (rewrite FloatErr.bpow_m23; unfold FloatErr.krel in By; lra).
  exists sx, sy. split; [exact Ef|]. split.
  - intros Hout. unfold scale_coordinates. rewrite Hen, Ef. cbn [negb rbind int_value].
    assert (Hb : ((x >? width self) || (y >? height self))%bool = true).
    { apply Bool.orb_true_iff. destruct Hout; [left | right]; apply Z.gtb_lt; lia. }
    rewrite Hb. reflexivity.
  - intros Hxw Hyh.
    destruct (FloatErr.div_round_ok x sx ltac:(lia) Fx Lx) as (qx & rx & Eqx & Erx).
    destruct (FloatErr.div_round_ok y sy ltac:(lia) Fy Ly) as (qy & ry & Eqy & Ery).
    exists qx, rx, qy, ry. repeat split; try assumption.
    unfold scale_coordinates. rewrite Hen, Ef. cbn [negb rbind int_value].
    rewrite (gtb_false x), (gtb_false y) by lia. cbn [orb].
    rewrite Eqx. cbn [rbind]. rewrite Erx. cbn [rbind].
    rewrite Eqy. cbn [rbind]. rewrite Ery. reflexivity.
Qed.

Lemma api_bounds_check_witness :
  exists sx sy,
    scaling_factors default_tool = inr (sx, sy) /\
    (600 > 1920 \/ 600 > 1080 ->
     scale_coordinates default_tool API (PyInt 600) (PyInt 600)
     = inl (ToolError [Lit "Coordinates "; Val (PyInt 600); Lit ", "; Val (PyInt 600);
                       Lit " are out of bounds"])) /\
    (600 <= 1920 -> 600 <= 1080 ->
     exists qx rx qy ry,
       PyFloat.int_div_float 600 sx = inr qx /\ PyFloat.round qx = inr rx /\
       PyFloat.int_div_float 600 sy = inr qy /\ PyFloat.round qy = inr ry /\
       scale_coordinates default_tool API (PyInt 600) (PyInt 600) = inr (PyInt rx, PyInt ry)).
Proof.
  apply (api_bounds_check default_tool 600 600);
    unfold default_tool; simpl; (reflexivity || lia).
Defined.

(** C2 fails for a negative coordinate too large for a float: converting it
    raises OverflowError instead of returning a pair. *)
Lemma api_bounds_check_overflow :
  scale_coordinates default_tool API (PyInt (- 2 ^ 1100)) (PyInt 0) = inl OverflowError.
Proof. vm_compute. reflexivity. Qed.

(** C3.  A [mouse_move] or [left_click_drag] call fails with a [ToolError],
    before any call into pyautogui or the filesystem, when the coordinate is
    absent, when it is not a pair (a list or tuple) of exactly two elements,
    when it contains a negative integer or a value that is not an integer
    ([bool] is an integer in Python), and when a text is supplied. *)
Theorem move_drag_invalid (hex : nat -> string) (self : ComputerTool)
    (action : string) (text coordinate : pyval) (w : world) :
  action = "mouse_move"%string \/ action = "left_click_drag"%string ->
  coordinate = PyNone \/
  text <> PyNone \/
  ~ (exists a b, coordinate = PyList [a; b] \/ coordinate = PyTuple [a; b]) \/
  (exists l n, (coordinate = PyList l \/ coordinate = PyTuple l) /\
               In (PyInt n) l /\ n < 0) \/
  (exists l v, (coordinate = PyList l \/ coordinate = PyTuple l) /\ In v l /\
               (forall n, v <> PyInt n) /\ (forall b, v <> PyBool b)) ->
  exists msg, __call__ hex self action text coordinate w = (inl (ToolError msg), w).
Proof.
  intros Hact Hbad.
  assert (Hin : in_list action ["mouse_move"; "left_click_drag"]%string = true)
    by (destruct Hact; subst; reflexivity).
  unfold __call__. rewrite Hin.
  destruct (is_none coordinate) eqn:Ec; [eexists; reflexivity|].
  destruct text; cbn [is_none negb]; try (eexists; reflexivity).
  destruct coordinate as [| | | | | l | l]; try (eexists; reflexivity).
  destruct l as [|c0 [|c1 [|c2 l]]]; try (eexists; reflexivity).
  destruct (forallb is_nonneg_int [c0; c1]) eqn:Ea; cbn [negb];
    [|eexists; reflexivity].
  exfalso. rewrite forallb_forall in Ea.
  destruct Hbad as [Hb | [Hb | [Hb | [Hb | Hb]]]].
  - discriminate.
  - apply Hb. reflexivity.
  - apply Hb. exists c0, c1. left. reflexivity.
  - destruct Hb as (l & n & [El | El] & Hn & Hlt); [|discriminate].
    injection El as <-. apply Ea in Hn. cbn in Hn. lia.
  - destruct Hb as (l & v & [El | El] & Hv & Hni & Hnb); [|discriminate].
    injection El as <-. apply Ea in Hv.
    destruct v; cbn in Hv; try discriminate.
    + eapply Hnb. reflexivity.
    + eapply Hni. reflexivity.
Qed.

Lemma move_drag_invalid_witness :
  exists msg, __call__ hex0 default_tool "mouse_move" PyNone (PyList [PyInt 3; PyInt (-1)])
                world0 = (inl (ToolError msg), world0).
Proof.
  apply (move_drag_invalid hex0 default_tool "mouse_move" PyNone
           (PyList [PyInt 3; PyInt (-1)]) world0).
  - left. reflexivity.
  - right. right. right. left. exists [PyInt 3; PyInt (-1)], (-1).
    split; [left; reflexivity|]. split; [simpl; tauto | lia].
Defined.

(** C4.  A [key] call with a string text and no coordinate presses, when the
    text contains ['+'], the chord of the pieces of the text split on ['+'],
    each stripped and lower-cased, and otherwise the single key named by the
    lower-cased text; then it takes the post-action screenshot.  The pieces
    are the text cut at each ['+']: joined with ['+'] they give back the
    text, none contains ['+'], and a text with a ['+'] gives at least two of
    them, so the chord is never one literal key.  The text ["ctrl+c"]
    presses the two-key chord [["ctrl"; "c"]]. *)
Theorem key_action (hex : nat -> string) (self : ComputerTool) (s : string) (w : world) :
  __call__ hex self "key" (PyStr s) PyNone w =
  ((if PyStr.contains "+" s then
      emit (Hotkey (map (fun key => PyStr.lower (PyStr.strip key)) (PyStr.split "+" s)))
    else emit (Press (PyStr.lower s))) ;;;
   take_action_screenshot hex self) w /\
  String.concat "+" (PyStr.split "+" s) = s /\
  Forall (fun key => PyStr.contains "+" key = false) (PyStr.split "+" s) /\
  (PyStr.contains "+" s = true -> (2 <= List.length (PyStr.split "+" s))%nat) /\
  __call__ hex self "key" (PyStr "ctrl+c") PyNone w =
  (emit (Hotkey ["ctrl"; "c"]%string) ;;; take_action_screenshot hex self) w.
Proof.
  split; [reflexivity|]. split; [apply split_concat|].
  split; [apply split_pieces|]. split; [apply split_length | reflexivity].
Qed.

(** The chord of ["Ctrl + Shift+\xC9"]: the pieces are stripped and the
    Latin-1 capital E with acute accent is lower-cased too. *)
Lemma key_action_witness :
  let s := ("Ctrl + Shift+" ++ String (ascii_of_nat 201) EmptyString)%string in
  __call__ hex0 default_tool "key" (PyStr s) PyNone world0 =
  (emit (Hotkey ["ctrl"; "shift"; String (ascii_of_nat 233) EmptyString]%string) ;;;
   take_action_screenshot hex0 default_tool) world0.
Proof.
  intros s. destruct (key_action hex0 default_tool s world0) as [E _].
  rewrite E. vm_compute. reflexivity.
Defined.

(** C5.  A [cursor_position] call with no text and no coordinate returns,
    without any event and so without a screenshot, the result whose output
    is the f-string [f"X={scaled_x},Y={scaled_y}"] of the pointer location
    converted with source [COMPUTER], and no image; with a text or a
    coordinate it fails with a [ToolError] before any event. *)
Theorem cursor_position_result (hex : nat -> string) (self : ComputerTool)
    (w : world) (a b : pyval) :
  scale_coordinates self COMPUTER (PyInt (fst (pointer w))) (PyInt (snd (pointer w)))
  = inr (a, b) ->
  __call__ hex self "cursor_position" PyNone PyNone w
  = (inr (result_output [Lit "X="; Val a; Lit ",Y="; Val b]), w) /\
  base64_image (result_output [Lit "X="; Val a; Lit ",Y="; Val b]) = None /\
  (forall text coordinate, text <> PyNone \/ coordinate <> PyNone ->
   exists msg, __call__ hex self "cursor_position" text coordinate w
               = (inl (ToolError msg), w)).
Proof.
  intros Hs. split; [|split; [reflexivity|]].
  - unfold __call__. cbn -[scale_coordinates take_action_screenshot screenshot].
    unfold mbind, position, lift. rewrite Hs. reflexivity.
  - intros text coordinate Hn. unfold __call__.
    cbn -[scale_coordinates take_action_screenshot screenshot].
    destruct text; cbn [is_none negb]; try (eexists; reflexivity).
    destruct coordinate; cbn [is_none negb]; try (eexists; reflexivity).
    exfalso. destruct Hn as [Hn | Hn]; apply Hn; reflexivity.
Qed.

Lemma cursor_position_result_witness :
  __call__ hex0 default_tool "cursor_position" PyNone PyNone world0
  = (inr (result_output [Lit "X="; Val (PyInt 625); Lit ",Y="; Val (PyInt 312)]), world0) /\
  base64_image (result_output [Lit "X="; Val (PyInt 625); Lit ",Y="; Val (PyInt 312)]) = None /\
  (forall text coordinate, text <> PyNone \/ coordinate <> PyNone ->
   exists msg, __call__ hex0 default_tool "cursor_position" text coordinate world0
               = (inl (ToolError msg), world0)).
Proof.
  apply (cursor_position_result hex0 default_tool world0 (PyInt 625) (PyInt 312)).
  vm_compute. reflexivity.
Defined.

(** C6.  A call whose action is not one of the ten actions fails with the
    [ToolError] ["Invalid action: {action}"], whatever its text and
    coordinate, before any event. *)
Theorem invalid_action (hex : nat -> string) (self : ComputerTool) (action : string)
    (text coordinate : pyval) (w : world) :
  ~ In action ["key"; "type"; "mouse_move"; "left_click"; "left_click_drag";
               "right_click"; "middle_click"; "double_click"; "screenshot";
               "cursor_position"]%string ->
  __call__ hex self action text coordinate w
  = (inl (ToolError [Lit "Invalid action: "; Val (PyStr action)]), w).
Proof.
  intros Hn. unfold __call__.
  rewrite !in_list_false by (intros H; apply Hn; simpl in *; tauto).
  reflexivity.
Qed.

Lemma invalid_action_witness :
  __call__ hex0 default_tool "scroll" (PyStr "up") (PyList [PyInt 1; PyInt 2]) world0
  = (inl (ToolError [Lit "Invalid action: "; Val (PyStr "scroll")]), world0).
Proof.
  apply (invalid_action hex0 default_tool "scroll" (PyStr "up")
           (PyList [PyInt 1; PyInt 2]) world0).
  intros H. simpl in H.
  repeat (destruct H as [H | H]; [discriminate H|]). exact H.
Defined.

(** C7.  With scaling enabled and a screen of at most [2^32] pixels in each
    direction, the descriptor [to_params()] has name ["computer"], type
    ["computer_20241022"], the optional display number, and an advertised
    width of exactly [IMAGE_MAX_WIDTH]: a screen narrower than
    [IMAGE_MAX_WIDTH] is advertised scaled up, not down. *)
Theorem options_width_is_cap (self : ComputerTool) :
  scaling_enabled self = true ->
  1 <= width self <= 2 ^ 32 -> 1 <= height self <= 2 ^ 32 ->
  exists h,
    to_params self
    = inr {| param_name := "computer"; param_type := "computer_20241022";
             param_options := {| display_height_px := PyInt h;
                                 display_width_px := PyInt IMAGE_MAX_WIDTH;
                                 display_number := display_num self |} |}.
Proof.
  intros Hen HW HH.
  destruct (scaling_factors_bounds self HW HH) as (sx & sy & Ef & Fx & Fy & Bx & By).
  destruct (FloatErr.mul_round_width (width self) sx HW Fx Bx) as (px & Epx & Erx).
  assert (RW : (1 <= IZR (width self))%R) by (apply IZR_le; lia).
  assert (HK : (1200 / IZR (width self) <= 1200)%R).
  { replace 1200%R with (1200 / 1)%R at 2 by field. apply FloatErr.div_le_compat; lra. }
  assert (Sy : (FloatErr.B2R sy <= 2048)%R) by (unfold FloatErr.krel in By; lra).
  destruct (FloatErr.mul_round_ok (height self) sy ltac:(lia) Fy Sy)
    as (py & ry & Epy & Ery).
  exists ry.
  unfold to_params, options, scale_coordinates. rewrite Hen, Ef.
  cbn [negb rbind int_value].
  rewrite Epx. cbn [rbind]. rewrite Erx. cbn [rbind].
  rewrite Epy. cbn [rbind]. rewrite Ery. reflexivity.
Qed.

Lemma options_width_is_cap_witness :
  exists h,
    to_params (tool_wh 800 600)
    = inr {| param_name := "computer"; param_type := "computer_20241022";
             param_options := {| display_height_px := PyInt h;
                                 display_width_px := PyInt IMAGE_MAX_WIDTH;
                                 display_number := None |} |}.
Proof.
  apply (options_width_is_cap (tool_wh 800 600)); unfold tool_wh; simpl;
    (reflexivity || lia).
Defined.

(** An 800 x 600 screen is advertised as 1200 x 900. *)
Lemma options_800x600 :
  to_params (tool_wh 800 600)
  = inr {| param_name := "computer"; param_type := "computer_20241022";
           param_options := {| display_height_px := PyInt 900;
                               display_width_px := PyInt 1200;
                               display_number := None |} |}.
Proof. vm_compute. reflexivity. Qed.

(** C8.  A [mouse_move] or [left_click_drag] call whose coordinate is a
    tuple, for instance a tuple of two non-negative ints, fails with the
    [ToolError] ["{coordinate} must be a tuple of length 2"], because the
    check asks for a list. *)
Theorem tuple_coordinate_rejected (hex : nat -> string) (self : ComputerTool)
    (action : string) (l : list pyval) (w : world) :
  action = "mouse_move"%string \/ action = "left_click_drag"%string ->
  __call__ hex self action PyNone (PyTuple l) w
  = (inl (ToolError [Val (PyTuple l); Lit " must be a tuple of length 2"]), w).
Proof.
  intros Hact.
  assert (Hin : in_list action ["mouse_move"; "left_click_drag"]%string = true)
    by (destruct Hact; subst; reflexivity).
  unfold __call__. rewrite Hin. reflexivity.
Qed.

Lemma tuple_coordinate_rejected_witness :
  __call__ hex0 default_tool "mouse_move" PyNone (PyTuple [PyInt 100; PyInt 200]) world0
  = (inl (ToolError [Val (PyTuple [PyInt 100; PyInt 200]);
                     Lit " must be a tuple of length 2"]), world0).
Proof.
  apply (tuple_coordinate_rejected hex0 default_tool "mouse_move"
           [PyInt 100; PyInt 200] world0).
  left. reflexivity.
Defined.

(** C9.  With scaling disabled, [scale_coordinates] returns its arguments
    unchanged in both directions, without any bounds check.  The bounds
    check is on the scaling-enabled [API] path only: the [COMPUTER] path
    never raises a [ToolError], scaling enabled or not, and with scaling
    enabled (on a screen of at most [2^32] pixels each way) a point past the
    screen is rejected from [API] but converted from [COMPUTER]. *)
Theorem scaling_disabled_identity (self : ComputerTool) (source : ScalingSource)
    (x y : pyval) :
  (scaling_enabled self = false -> scale_coordinates self source x y = inr (x, y)) /\
  (forall msg, scale_coordinates self COMPUTER x y <> inl (ToolError msg)) /\
  (scaling_enabled self = true ->
   1 <= width self <= 2 ^ 32 -> 1 <= height self <= 2 ^ 32 ->
   forall a b, 0 <= a <= 2 ^ 32 -> 0 <= b <= 2 ^ 32 ->
   a > width self \/ b > height self ->
   scale_coordinates self API (PyInt a) (PyInt b)
   = inl (ToolError [Lit "Coordinates "; Val (PyInt a); Lit ", "; Val (PyInt b);
                     Lit " are out of bounds"]) /\
   exists ra rb,
     scale_coordinates self COMPUTER (PyInt a) (PyInt b) = inr (PyInt ra, PyInt rb)).
Proof.
  split; [|split].
  - intros H. unfold scale_coordinates. rewrite H. reflexivity.
  - intros msg. unfold scale_coordinates.
    destruct (negb (scaling_enabled self)); [discriminate|].
    apply rbind_not_tool; [intros; apply scaling_factors_not_tool | intros [fx fy]].
    apply rbind_not_tool; [intros; apply int_value_not_tool | intros xi].
    apply rbind_not_tool; [intros; apply int_value_not_tool | intros yi].
    apply rbind_not_tool;
      [intros; apply rbind_not_tool; [intros; apply of_int_not_tool | intros; discriminate]
      | intros px].
    apply rbind_not_tool; [intros; apply round_not_tool | intros rx].
    apply rbind_not_tool;
      [intros; apply rbind_not_tool; [intros; apply of_int_not_tool | intros; discriminate]
      | intros py].
    apply rbind_not_tool; [intros; apply round_not_tool | intros ry].
    discriminate.
  - intros Hen HW HH a b Ha Hb Hout. split.
    + destruct (scaling_factors_bounds self HW HH) as (sx & sy & Ef & _).
      unfold scale_coordinates. rewrite Hen, Ef. cbn [negb rbind int_value].
      replace ((a >? width self) || (b >? height self)) with true
        by (destruct Hout as [Hg | Hg];
            [rewrite (proj2 (Z.gtb_lt a (width self)) ltac:(lia)) |
             rewrite (proj2 (Z.gtb_lt b (height self)) ltac:(lia)), orb_true_r];
            reflexivity).
      reflexivity.
    + destruct (computer_scale_close self a b Hen HW HH Ha Hb) as (ra & rb & E & _).
      exists ra, rb. exact E.
Qed.

Lemma scaling_disabled_identity_witness :
  scale_coordinates
    {| width := 1920; height := 1080; display_num := None; scaling_enabled := false |}
    API (PyInt 5000) (PyInt 5000)
  = inr (PyInt 5000, PyInt 5000) /\
  (scale_coordinates default_tool API (PyInt 5000) (PyInt 5000)
   = inl (ToolError [Lit "Coordinates "; Val (PyInt 5000); Lit ", "; Val (PyInt 5000);
                     Lit " are out of bounds"]) /\
   exists ra rb,
     scale_coordinates default_tool COMPUTER (PyInt 5000) (PyInt 5000)
     = inr (PyInt ra, PyInt rb)).
Proof.
  split.
  - apply (scaling_disabled_identity
             {| width := 1920; height := 1080; display_num := None; scaling_enabled := false |}
             API (PyInt 5000) (PyInt 5000)).
    reflexivity.
  - apply (scaling_disabled_identity default_tool API (PyInt 5000) (PyInt 5000));
      [reflexivity | cbn; lia ..].
Defined.

(** C10 (amended).  For a screen of at most [2^32] pixels in each direction
    both scaling factors are within a relative [krel = 2^-46] of
    [IMAGE_MAX_WIDTH / width], so they agree up to rounding; they are not
    always equal. *)
Theorem scaling_factors_close (self : ComputerTool) :
  1 <= width self <= 2 ^ 32 -> 1 <= height self <= 2 ^ 32 ->
  exists sx sy,
    scaling_factors self = inr (sx, sy) /\
    (Rabs (FloatErr.B2R sx - 1200 / IZR (width self))
       <= FloatErr.krel * (1200 / IZR (width self)))%R /\
    (Rabs (FloatErr.B2R sy - 1200 / IZR (width self))
       <= FloatErr.krel * (1200 / IZR (width self)))%R.
Proof.
  intros HW HH.
  destruct (scaling_factors_bounds self HW HH) as (sx & sy & Ef & _ & _ & Bx & By).
  exists sx, sy. split; [exact Ef|].
  split; apply FloatErr.Rabs_le_iff; lra.
Qed.

Lemma scaling_factors_close_witness :
  exists sx sy,
    scaling_factors (tool_wh 1366 768) = inr (sx, sy) /\
    (Rabs (FloatErr.B2R sx - 1200 / IZR 1366) <= FloatErr.krel * (1200 / IZR 1366))%R /\
    (Rabs (FloatErr.B2R sy - 1200 / IZR 1366) <= FloatErr.krel * (1200 / IZR 1366))%R.
Proof. apply (scaling_factors_close (tool_wh 1366 768)); simpl; lia. Defined.

(** C10 fails at 1366 x 768: the two factors differ in their last bit. *)
Lemma scaling_factors_differ_1366x768 :
  scaling_factors (tool_wh 1366 768)
  = inr (S754_finite false 7912620135936450 (-53),
         S754_finite false 7912620135936451 (-53)).
Proof. vm_compute. reflexivity. Qed.

(** ** Further properties of the code *)

(** *** [chunks] *)

Lemma list_ascii_length s : List.length (list_ascii_of_string s) = String.length s.
Proof. induction s; simpl; congruence. Qed.

Lemma list_ascii_app a b :
  list_ascii_of_string (a ++ b) = (list_ascii_of_string a ++ list_ascii_of_string b)%list.
Proof. induction a; simpl; congruence. Qed.

Lemma substring_list i m s :
  substring i m s
  = string_of_list_ascii (firstn m (skipn i (list_ascii_of_string s))).
Proof.
  revert i m. induction s as [|c s IH]; intros i m.
  - destruct i, m; reflexivity.
  - destruct i as [|i]; [destruct m as [|m]|].
    + reflexivity.
    + simpl. f_equal. rewrite IH. reflexivity.
    + simpl. apply IH.
Qed.

Lemma firstn_min_length {A} m (x : list A) :
  firstn (Nat.min m (List.length x)) x = firstn m x.
Proof.
  destruct (Nat.le_ge_cases m (List.length x)).
  - rewrite Nat.min_l by lia. reflexivity.
  - rewrite Nat.min_r by lia. rewrite firstn_all, firstn_all2 by lia. reflexivity.
Qed.

(** [s[i : i + k]] for [0 <= i] and [0 < k]. *)
Lemma slice_chunk s i k :
  0 <= i -> 0 < k ->
  py_slice s i (i + k)
  = string_of_list_ascii (firstn (Z.to_nat k) (skipn (Z.to_nat i) (list_ascii_of_string s))).
Proof.
  intros Hi Hk. unfold py_slice, slice_index.
  rewrite <- list_ascii_length. set (L := list_ascii_of_string s).
  rewrite substring_list. fold L.
  rewrite (proj2 (Z.ltb_ge i _)) by lia. rewrite (proj2 (Z.ltb_ge (i + k) _)) by lia.
  destruct (Z.le_gt_cases (Z.of_nat (List.length L)) i) as [Hle | Hlt].
  - rewrite Z.min_r by lia. rewrite Z.min_r by lia. rewrite Z.sub_diag.
    rewrite (skipn_all2 (n := Z.to_nat i) L) by lia. rewrite firstn_nil.
    reflexivity.
  - rewrite (Z.min_l i) by lia. f_equal.
    rewrite <- (firstn_min_length (Z.to_nat k)), length_skipn. f_equal. lia.
Qed.

Definition chunk_count (n k : Z) : Z := (n + k - 1) / k.

Lemma chunks_eq s k :
  0 < k ->
  chunks s k
  = inr (map (fun j => string_of_list_ascii
                         (firstn (Z.to_nat k) (skipn (Z.to_nat k * j)
                                                 (list_ascii_of_string s))))
             (seq 0 (Z.to_nat ((Z.of_nat (String.length s) + k - 1) / k)))).
Proof.
  intros Hk. unfold chunks, py_range.
  rewrite (proj2 (Z.eqb_neq k 0)) by lia. rewrite (proj2 (Z.gtb_lt k 0)) by lia.
  cbn [rbind]. rewrite Z.sub_0_r, map_map. f_equal. apply map_ext. intros j.
  rewrite slice_chunk by lia. do 3 f_equal. lia.
Qed.

Lemma ceil_bounds n k :
  0 <= n -> 0 < k ->
  let c := (n + k - 1) / k in
  0 <= c /\ n <= k * c /\ (0 < n -> k * (c - 1) < n) /\ (n = 0 -> c = 0).
Proof.
  intros Hn Hk c.
  pose proof (Z.div_mod (n + k - 1) k ltac:(lia)) as Hd.
  pose proof (Z.mod_pos_bound (n + k - 1) k Hk) as Hr.
  fold c in Hd.
  assert (0 <= c) by (apply Z.div_pos; lia).
  split; [lia|]. split; [nia|]. split; [intros; nia|].
  intros Hn0. subst n. unfold c. apply Z.div_small. lia.
Qed.

Lemma concat_chunks (L : list ascii) K c a :
  (List.length L <= K * (a + c))%nat ->
  List.concat (map (fun j => firstn K (skipn (K * j) L)) (seq a c)) = skipn (K * a) L.
Proof.
  revert a. induction c as [|c IH]; intros a Hc.
  - simpl. rewrite skipn_all2 by lia. reflexivity.
  - simpl. rewrite IH by lia.
    replace (K * S a)%nat with (K + K * a)%nat by lia.
    rewrite <- skipn_skipn. apply firstn_skipn.
Qed.

Lemma string_concat_list l :
  list_ascii_of_string (String.concat "" l)
  = List.concat (map list_ascii_of_string l).
Proof.
  induction l as [|x l IH]; [reflexivity|].
  destruct l as [|y l].
  - simpl. rewrite app_nil_r. reflexivity.
  - change (String.concat "" (x :: y :: l)) with (x ++ String.concat "" (y :: l))%string.
    rewrite list_ascii_app, IH. reflexivity.
Qed.

(** X1: For a positive chunk size, [chunks] succeeds and joining its pieces
    gives back the string. *)
Theorem chunks_concat s k :
  0 < k -> exists l, chunks s k = inr l /\ String.concat "" l = s.
Proof.
  intros Hk. rewrite chunks_eq by exact Hk. eexists. split; [reflexivity|].
  rewrite <- (string_of_list_ascii_of_string (String.concat "" _)).
  rewrite string_concat_list, map_map.
  erewrite map_ext by (intros j; apply list_ascii_of_string_of_list_ascii).
  rewrite concat_chunks.
  - rewrite Nat.mul_0_r. apply string_of_list_ascii_of_string.
  - rewrite list_ascii_length.
    destruct (ceil_bounds (Z.of_nat (String.length s)) k ltac:(lia) Hk)
      as (H0 & H1 & _ & _).
    apply Nat2Z.inj_le. rewrite Nat2Z.inj_mul, Nat.add_0_l, !Z2Nat.id by lia. exact H1.
Qed.

Lemma string_length_sol x : String.length (string_of_list_ascii x) = List.length x.
Proof. rewrite <- list_ascii_length, list_ascii_of_string_of_list_ascii. reflexivity. Qed.

(** X2: For a positive chunk size [k], [chunks s k] has ceil(len(s)/k)
    pieces, each nonempty and at most [k] long, and all but the last exactly
    [k] long. *)
Theorem chunks_sizes s k :
  0 < k ->
  exists l, chunks s k = inr l /\
    Z.of_nat (List.length l) = (Z.of_nat (String.length s) + k - 1) / k /\
    Forall (fun c => (0 < String.length c)%nat /\ Z.of_nat (String.length c) <= k) l /\
    Forall (fun c => Z.of_nat (String.length c) = k) (removelast l).
Proof.
  intros Hk. rewrite chunks_eq by exact Hk. eexists. split; [reflexivity|].
  set (n := String.length s).
  destruct (ceil_bounds (Z.of_nat n) k ltac:(lia) Hk) as (H0 & H1 & H2 & H3).
  set (c := (Z.of_nat n + k - 1) / k) in *.
  assert (Hlen : forall j, String.length (string_of_list_ascii
                   (firstn (Z.to_nat k) (skipn (Z.to_nat k * j) (list_ascii_of_string s))))
                 = Nat.min (Z.to_nat k) (n - Z.to_nat k * j)).
  { intros j. rewrite string_length_sol, length_firstn, length_skipn, list_ascii_length.
    reflexivity. }
  split; [rewrite length_map, length_seq; lia|]. split.
  - apply Forall_forall. intros x Hx. apply in_map_iff in Hx.
    destruct Hx as (j & <- & Hj). apply in_seq in Hj. rewrite Hlen.
    assert (0 < Z.of_nat n) by (destruct (Z.eq_dec (Z.of_nat n) 0); [apply H3 in e; lia | lia]).
    specialize (H2 H). nia.
  - destruct (Z.to_nat c) as [|c'] eqn:Ec; [constructor|].
    rewrite seq_S, map_app. cbn [map]. rewrite removelast_last.
    apply Forall_forall. intros x Hx. apply in_map_iff in Hx.
    destruct Hx as (j & <- & Hj). apply in_seq in Hj. rewrite Hlen.
    assert (0 < Z.of_nat n) by (destruct (Z.eq_dec (Z.of_nat n) 0); [apply H3 in e; lia | lia]).
    specialize (H2 H). nia.
Qed.

(** X3: A chunk size of zero raises ValueError (from [range]); a negative
    chunk size gives no chunks. *)
Theorem chunks_nonpositive s k :
  k <= 0 -> chunks s k = if k =? 0 then inl ValueError else inr [].
Proof.
  intros Hk. unfold chunks, py_range.
  destruct (Z.eqb_spec k 0); [reflexivity|].
  assert (Hg : (k >? 0) = false) by (rewrite Z.gtb_ltb; apply Z.ltb_ge; lia). rewrite Hg.
  assert (Hq : (0 - Z.of_nat (String.length s) - k - 1) / - k < 1)
    by (apply Z.div_lt_upper_bound; lia).
  replace (Z.to_nat _) with 0%nat by lia. reflexivity.
Qed.

(** *** [__init__] *)

Lemma digit_value_char d : 0 <= d <= 9 -> digit_value (digit_char d) = Some d.
Proof.
  intros Hd. unfold digit_value, digit_char.
  rewrite nat_ascii_embedding by lia.
  replace ((48 <=? 48 + Z.to_nat d)%nat && (48 + Z.to_nat d <=? 57)%nat)%bool with true.
  - f_equal. lia.
  - symmetry. apply andb_true_iff. split; apply Nat.leb_le; lia.
Qed.

Lemma parse_digits_chars ds acc cnt :
  Forall (fun d => 0 <= d <= 9) ds ->
  parse_digits acc cnt (map digit_char ds)
  = Some (fold_left (fun a d => 10 * a + d) ds acc, (cnt + List.length ds)%nat).
Proof.
  revert acc cnt. induction ds as [|d ds IH]; intros acc cnt Hds.
  - simpl. rewrite Nat.add_0_r. reflexivity.
  - inversion Hds as [|? ? Hd Hds']. subst. cbn [map parse_digits].
    rewrite digit_value_char by exact Hd. rewrite IH by exact Hds'.
    cbn [List.length fold_left]. rewrite Nat.add_succ_r. reflexivity.
Qed.

Lemma int_isspace_digit d : 0 <= d <= 9 -> int_isspace (digit_char d) = false.
Proof.
  intros Hd. unfold int_isspace, digit_char. rewrite nat_ascii_embedding by lia.
  repeat (apply orb_false_iff; split); try (apply Nat.eqb_neq; lia).
  apply andb_false_iff. right. apply Nat.leb_gt. lia.
Qed.

Lemma int_drop_space_app ws x :
  Forall (fun c => int_isspace c = true) ws ->
  (forall c x', x = c :: x' -> int_isspace c = false) ->
  int_drop_space (ws ++ x) = x.
Proof.
  intros Hws Hx. induction Hws as [|c ws Hc Hws IH].
  - destruct x as [|c x']; [reflexivity|]. simpl. rewrite (Hx c x' eq_refl). reflexivity.
  - simpl. rewrite Hc. exact IH.
Qed.

(** [int(s)] of decimal digits, possibly with surrounding whitespace. *)
Lemma int_of_str_decimal ws1 ds ws2 :
  Forall (fun c => int_isspace c = true) ws1 ->
  Forall (fun c => int_isspace c = true) ws2 ->
  ds <> [] -> Forall (fun d => 0 <= d <= 9) ds -> (List.length ds <= 4300)%nat ->
  int_of_str (string_of_list_ascii (ws1 ++ map digit_char ds ++ ws2))
  = inr (decimal_value ds).
Proof.
  intros H1 H2 Hne Hds Hlen. unfold int_of_str.
  rewrite list_ascii_of_string_of_list_ascii.
  assert (Hsp : forall c, In c (map digit_char ds) -> int_isspace c = false).
  { intros c Hc. apply in_map_iff in Hc. destruct Hc as (d & <- & Hd).
    apply int_isspace_digit. rewrite Forall_forall in Hds. auto. }
  rewrite int_drop_space_app.
  2: exact H1.
  2: { intros c x' E. destruct ds as [|d ds]; [contradiction|].
       simpl in E. injection E as <- _. apply Hsp. left. reflexivity. }
  rewrite rev_app_distr.
  rewrite int_drop_space_app.
  2: { apply Forall_rev. exact H2. }
  2: { intros c x' E. apply Hsp. apply in_rev. rewrite E. left. reflexivity. }
  rewrite rev_involutive.
  destruct ds as [|d ds']; [contradiction|].
  inversion Hds as [|? ? Hd Hds']. subst.
  assert (E : parse_unsigned (map digit_char (d :: ds'))
              = Some (decimal_value (d :: ds'), List.length (d :: ds'))).
  { unfold parse_unsigned. cbn [map]. rewrite digit_value_char by exact Hd.
    change (digit_char d :: map digit_char ds') with (map digit_char (d :: ds')).
    rewrite parse_digits_chars by exact Hds. reflexivity. }
  assert (Hd' : digit_char d <> "-"%char /\ digit_char d <> "+"%char).
  { unfold digit_char. split; intros Ec; apply (f_equal nat_of_ascii) in Ec;
    rewrite nat_ascii_embedding in Ec by lia; cbn in Ec; lia. }
  cbn [map] in *. revert E Hd'. generalize (digit_char d). intros c E Hd'.
  destruct c as [[] [] [] [] [] [] [] []];
    try (exfalso; destruct Hd' as [Hm Hp]; first [apply Hm; reflexivity | apply Hp; reflexivity]);
    cbv beta iota zeta; rewrite E;
    rewrite (proj2 (Nat.leb_le _ _)) by exact Hlen; reflexivity.
Qed.

(** X4: With WIDTH and HEIGHT unset or empty and DISPLAY_NUM unset, the
    constructor gives a 1920 x 1080 tool with no display number, scaling
    enabled, and turns on the pyautogui fail-safe. *)
Theorem init_defaults (getenv : string -> option string) :
  (getenv "WIDTH"%string = None \/ getenv "WIDTH"%string = Some ""%string) ->
  (getenv "HEIGHT"%string = None \/ getenv "HEIGHT"%string = Some ""%string) ->
  getenv "DISPLAY_NUM"%string = None ->
  __init__ getenv
  = inr ({| width := 1920; height := 1080; display_num := None; scaling_enabled := true |},
         true).
Proof.
  intros HW HH HD. unfold __init__.
  replace (int_getenv_or (getenv "WIDTH"%string) 1920) with (inr exn 1920)
    by (destruct HW as [E | E]; rewrite E; reflexivity).
  replace (int_getenv_or (getenv "HEIGHT"%string) 1080) with (inr exn 1080)
    by (destruct HH as [E | E]; rewrite E; reflexivity).
  rewrite HD. reflexivity.
Qed.

(** X5: Once WIDTH and HEIGHT are parsed (DISPLAY_NUM unset), the
    constructor fails its assertion "WIDTH, HEIGHT must be set" exactly when
    one of them is zero, and otherwise keeps both values. *)
Theorem init_size_check (getenv : string -> option string) (w h : Z) :
  int_getenv_or (getenv "WIDTH"%string) 1920 = inr w ->
  int_getenv_or (getenv "HEIGHT"%string) 1080 = inr h ->
  getenv "DISPLAY_NUM"%string = None ->
  (w = 0 \/ h = 0 -> __init__ getenv = inl (AssertionError "WIDTH, HEIGHT must be set")) /\
  (w <> 0 -> h <> 0 ->
   __init__ getenv
   = inr ({| width := w; height := h; display_num := None; scaling_enabled := true |}, true)).
Proof.
  intros HW HH HD. unfold __init__. rewrite HW, HH, HD. split.
  - intros [-> | ->]; [reflexivity|]. rewrite orb_true_r. reflexivity.
  - intros Hw Hh. rewrite (proj2 (Z.eqb_neq w 0) Hw), (proj2 (Z.eqb_neq h 0) Hh).
    reflexivity.
Qed.

(** X6: A WIDTH of decimal digits surrounded by whitespace (at most 4300
    digits, nonzero value) becomes the width of the tool, whenever HEIGHT
    gives a nonzero height and DISPLAY_NUM is unset or an int. *)
Theorem init_width_decimal (getenv : string -> option string) ws1 ds ws2 (h : Z)
    (d : option Z) :
  getenv "WIDTH"%string = Some (string_of_list_ascii (ws1 ++ map digit_char ds ++ ws2)) ->
  Forall (fun c => int_isspace c = true) ws1 ->
  Forall (fun c => int_isspace c = true) ws2 ->
  ds <> [] -> Forall (fun d => 0 <= d <= 9) ds -> (List.length ds <= 4300)%nat ->
  decimal_value ds <> 0 ->
  int_getenv_or (getenv "HEIGHT"%string) 1080 = inr h -> h <> 0 ->
  (getenv "DISPLAY_NUM"%string = None /\ d = None) \/
  (exists s n, getenv "DISPLAY_NUM"%string = Some s /\ int_of_str s = inr n /\ d = Some n) ->
  __init__ getenv
  = inr ({| width := decimal_value ds; height := h; display_num := d;
            scaling_enabled := true |}, true).
Proof.
  intros HW H1 H2 Hne Hds Hlen Hv HH Hh HD. unfold __init__.
  assert (E : int_getenv_or (getenv "WIDTH"%string) 1920 = inr (decimal_value ds)).
  { rewrite HW. unfold int_getenv_or.
    replace (String.eqb _ "") with false.
    - apply int_of_str_decimal; assumption.
    - symmetry. apply String.eqb_neq. intros E.
      apply (f_equal list_ascii_of_string) in E.
      rewrite list_ascii_of_string_of_list_ascii in E.
      destruct ds; [contradiction|]. destruct ws1; discriminate E. }
  rewrite E, HH.
  rewrite (proj2 (Z.eqb_neq _ 0) Hv), (proj2 (Z.eqb_neq h 0) Hh). cbn [orb].
  destruct HD as [[-> ->] | (s & n & -> & En & ->)]; [reflexivity|].
  rewrite En. reflexivity.
Qed.

Lemma int_drop_space_all l :
  Forall (fun c => int_isspace c = true) l -> int_drop_space l = [].
Proof. induction 1 as [|c l Hc _ IH]; [reflexivity|]. simpl. rewrite Hc. exact IH. Qed.

(** X7: A DISPLAY_NUM that is set but empty or only whitespace makes the
    constructor raise ValueError. *)
Theorem init_display_blank (getenv : string -> option string) (w h : Z) (s : string) :
  int_getenv_or (getenv "WIDTH"%string) 1920 = inr w ->
  int_getenv_or (getenv "HEIGHT"%string) 1080 = inr h -> w <> 0 -> h <> 0 ->
  getenv "DISPLAY_NUM"%string = Some s ->
  Forall (fun c => int_isspace c = true) (list_ascii_of_string s) ->
  __init__ getenv = inl (InitError ValueError).
Proof.
  intros HW HH Hw Hh HD Hs. unfold __init__. rewrite HW, HH, HD.
  rewrite (proj2 (Z.eqb_neq w 0) Hw), (proj2 (Z.eqb_neq h 0) Hh). cbn [orb].
  unfold int_of_str. rewrite (int_drop_space_all _ Hs). reflexivity.
Qed.

(** *** [screenshot], [take_action_screenshot] and [__call__] *)

Lemma screenshot_run hex self w x y :
  scaling_enabled self = true ->
  scale_coordinates self COMPUTER (PyInt (width self)) (PyInt (height self)) = inr (x, y) ->
  let p := path_div OUTPUT_DIR ("screenshot_" ++ hex (uuid_count w) ++ ".png")%string in
  let img := Resized (Capture (S (List.length (events w)))) x y in
  screenshot hex self w
  = (inr (result_image (Some img)),
     {| pointer := pointer w; uuid_count := S (uuid_count w);
        files := (p, img) :: files w;
        events := (events w ++ [Mkdir OUTPUT_DIR; Grab; Resize x y; Save p])%list |}).
Proof.
  intros Hen Hs p img.
  unfold screenshot, mbind, emit, uuid4, grab, lift, save, read_file, mret, add_event.
  rewrite Hen, Hs. cbn -[path_div OUTPUT_DIR]. fold p.
  rewrite String.eqb_refl. cbn [option_map snd].
  rewrite length_app. cbn [List.length]. rewrite Nat.add_1_r. fold img.
  rewrite <- !app_assoc. reflexivity.
Qed.

(** X9: With scaling disabled, [screenshot] saves and returns the grabbed
    image unresized. *)
Lemma screenshot_unscaled hex self w :
  scaling_enabled self = false ->
  let p := path_div OUTPUT_DIR ("screenshot_" ++ hex (uuid_count w) ++ ".png")%string in
  let img := Capture (S (List.length (events w))) in
  screenshot hex self w
  = (inr (result_image (Some img)),
     {| pointer := pointer w; uuid_count := S (uuid_count w);
        files := (p, img) :: files w;
        events := (events w ++ [Mkdir OUTPUT_DIR; Grab; Save p])%list |}).
Proof.
  intros Hen p img.
  unfold screenshot, mbind, emit, uuid4, grab, lift, save, read_file, mret, add_event.
  rewrite Hen. cbn -[path_div OUTPUT_DIR]. fold p.
  rewrite String.eqb_refl. cbn [option_map snd].
  rewrite length_app. cbn [List.length]. rewrite Nat.add_1_r. fold img.
  rewrite <- !app_assoc. reflexivity.
Qed.

Lemma options_scale self o :
  options self = inr o ->
  scale_coordinates self COMPUTER (PyInt (width self)) (PyInt (height self))
  = inr (display_width_px o, display_height_px o).
Proof.
  unfold options. destruct (scale_coordinates _ _ _ _) as [e | [a b]]; [discriminate|].
  cbn [rbind]. intros E. injection E as <-. reflexivity.
Qed.

Lemma take_action_run hex self w x y :
  scaling_enabled self = true ->
  scale_coordinates self COMPUTER (PyInt (width self)) (PyInt (height self)) = inr (x, y) ->
  let p := path_div OUTPUT_DIR ("screenshot_" ++ hex (uuid_count w) ++ ".png")%string in
  let img := Resized (Capture (List.length (events w) + 2)) x y in
  take_action_screenshot hex self w
  = (inr (result_image (Some img)),
     {| pointer := pointer w; uuid_count := S (uuid_count w);
        files := (p, img) :: files w;
        events := (events w ++ [Sleep float_2_0; Mkdir OUTPUT_DIR; Grab; Resize x y; Save p])%list |}).
Proof.
  intros Hen Hs p img.
  unfold take_action_screenshot, mbind, emit. cbv beta iota.
  rewrite (screenshot_run hex self (add_event (Sleep _screenshot_delay) w) x y Hen Hs).
  unfold mret, add_event. cbn [pointer uuid_count files events base64_image result_image].
  rewrite length_app. cbn [List.length].
  replace (S (List.length (events w) + 1)) with (List.length (events w) + 2)%nat by lia.
  rewrite <- !app_assoc. reflexivity.
Qed.

Lemma take_action_fail hex self w e :
  scaling_enabled self = true ->
  scale_coordinates self COMPUTER (PyInt (width self)) (PyInt (height self)) = inl e ->
  take_action_screenshot hex self w
  = (inl e,
     {| pointer := pointer w; uuid_count := S (uuid_count w); files := files w;
        events := (events w ++ [Sleep float_2_0; Mkdir OUTPUT_DIR; Grab])%list |}).
Proof.
  intros Hen Hs.
  unfold take_action_screenshot, screenshot, mbind, emit, uuid4, grab, lift, add_event.
  rewrite Hen, Hs. cbn. rewrite <- !app_assoc. reflexivity.
Qed.

Lemma options_scale_err self e :
  options self = inl e ->
  scale_coordinates self COMPUTER (PyInt (width self)) (PyInt (height self)) = inl e.
Proof.
  unfold options. destruct (scale_coordinates _ _ _ _) as [e' | [a b]]; [|discriminate].
  cbn [rbind]. intros E. injection E as <-. reflexivity.
Qed.

Lemma emit_take_action hex self w ev x y :
  scaling_enabled self = true ->
  scale_coordinates self COMPUTER (PyInt (width self)) (PyInt (height self)) = inr (x, y) ->
  let p := path_div OUTPUT_DIR ("screenshot_" ++ hex (uuid_count w) ++ ".png")%string in
  let img := Resized (Capture (List.length (events w) + 3)) x y in
  (emit ev ;;; take_action_screenshot hex self) w
  = (inr (result_image (Some img)),
     {| pointer := pointer w; uuid_count := S (uuid_count w);
        files := (p, img) :: files w;
        events := (events w ++ [ev; Sleep float_2_0; Mkdir OUTPUT_DIR; Grab; Resize x y;
                                Save p])%list |}).
Proof.
  intros Hen Hs p img. unfold mbind at 1, emit. cbv beta iota.
  rewrite (take_action_run hex self (add_event ev w) x y Hen Hs).
  unfold add_event. cbn [pointer uuid_count files events].
  rewrite length_app. cbn [List.length].
  replace (List.length (events w) + 1 + 2)%nat with (List.length (events w) + 3)%nat by lia.
  rewrite <- !app_assoc. reflexivity.
Qed.

Lemma emit_take_action_fail hex self w ev e :
  scaling_enabled self = true ->
  scale_coordinates self COMPUTER (PyInt (width self)) (PyInt (height self)) = inl e ->
  (emit ev ;;; take_action_screenshot hex self) w
  = (inl e,
     {| pointer := pointer w; uuid_count := S (uuid_count w); files := files w;
        events := (events w ++ [ev; Sleep float_2_0; Mkdir OUTPUT_DIR; Grab])%list |}).
Proof.
  intros Hen Hs. unfold mbind at 1, emit. cbv beta iota.
  rewrite (take_action_fail hex self (add_event ev w) e Hen Hs).
  unfold add_event. cbn [pointer uuid_count files events].
  rewrite <- !app_assoc. reflexivity.
Qed.

(** The API-to-computer conversion of an on-screen coordinate succeeds. *)
Lemma api_scale_ok self a b :
  scaling_enabled self = true ->
  1 <= width self <= 2 ^ 32 -> 1 <= height self <= 2 ^ 32 ->
  0 <= a <= width self -> 0 <= b <= height self ->
  exists x y, scale_coordinates self API (PyInt a) (PyInt b) = inr (PyInt x, PyInt y).
Proof.
  intros Hen HW HH Ha Hb.
  destruct (scaling_factors_bounds self HW HH) as (sx & sy & Ef & Fx & Fy & Bx & By).
  assert (RW : (1 <= IZR (width self) <= 4294967296)%R)
    by (split; apply IZR_le; [lia | change 4294967296 with (2 ^ 32); lia]).
  assert (HK : (1200 / 4294967296 <= 1200 / IZR (width self))%R)
    by (apply FloatErr.div_le_compat; lra).
  assert (Lx : (FloatErr.bpow (-23) <= FloatErr.B2R sx)%R)
    by (rewrite FloatErr.bpow_m23; unfold FloatErr.krel in Bx; lra).
  assert (Ly : (FloatErr.bpow (-23) <= FloatErr.B2R sy)%R)
    by (rewrite FloatErr.bpow_m23; unfold FloatErr.krel in By; lra).
  destruct (FloatErr.div_round_ok a sx ltac:(lia) Fx Lx) as (qx & rx & Eqx & Erx).
  destruct (FloatErr.div_round_ok b sy ltac:(lia) Fy Ly) as (qy & ry & Eqy & Ery).
  exists rx, ry.
  unfold scale_coordinates. rewrite Hen, Ef. cbn [negb rbind int_value].
  rewrite (gtb_false a), (gtb_false b) by lia. cbn [orb].
  rewrite Eqx. cbn [rbind]. rewrite Erx. cbn [rbind].
  rewrite Eqy. cbn [rbind]. rewrite Ery. reflexivity.
Qed.

(** The computer-to-API conversion of a coordinate in [[0, 2^32]] succeeds,
    and each component is within one unit of the exact [v * 1200 / width]. *)
(** X8: With scaling enabled and a descriptor [options], [screenshot] grabs
    the screen, resizes the image to the descriptor display_width_px x
    display_height_px, saves it under a fresh
    ./outputs/screenshot_<hex>.png, returns it, and leaves the pointer
    unchanged. *)
Theorem screenshot_matches_options hex self w o :
  scaling_enabled self = true -> options self = inr o ->
  let p := path_div OUTPUT_DIR ("screenshot_" ++ hex (uuid_count w) ++ ".png")%string in
  let img := Resized (Capture (S (List.length (events w))))
                     (display_width_px o) (display_height_px o) in
  screenshot hex self w
  = (inr (result_image (Some img)),
     {| pointer := pointer w; uuid_count := S (uuid_count w);
        files := (p, img) :: files w;
        events := (events w ++ [Mkdir OUTPUT_DIR; Grab;
                                Resize (display_width_px o) (display_height_px o);
                                Save p])%list |}).
Proof. intros Hen Ho. apply screenshot_run; [exact Hen | apply options_scale; exact Ho]. Qed.

(** X10: When scaling the screen size fails, [screenshot] raises that error
    after creating the directory and grabbing the screen, and saves no file. *)
Theorem screenshot_fails hex self w e :
  scaling_enabled self = true -> options self = inl e ->
  screenshot hex self w
  = (inl e,
     {| pointer := pointer w; uuid_count := S (uuid_count w); files := files w;
        events := (events w ++ [Mkdir OUTPUT_DIR; Grab])%list |}).
Proof.
  intros Hen Ho. apply options_scale_err in Ho.
  unfold screenshot, mbind, emit, uuid4, grab, lift, add_event.
  rewrite Hen, Ho. cbn. rewrite <- app_assoc. reflexivity.
Qed.

(** X11: [take_action_screenshot] sleeps 2.0 seconds before taking the
    screenshot. *)
Theorem take_action_screenshot_sleeps hex self w o :
  scaling_enabled self = true -> options self = inr o ->
  let p := path_div OUTPUT_DIR ("screenshot_" ++ hex (uuid_count w) ++ ".png")%string in
  let img := Resized (Capture (List.length (events w) + 2))
                     (display_width_px o) (display_height_px o) in
  take_action_screenshot hex self w
  = (inr (result_image (Some img)),
     {| pointer := pointer w; uuid_count := S (uuid_count w);
        files := (p, img) :: files w;
        events := (events w ++ [Sleep float_2_0; Mkdir OUTPUT_DIR; Grab;
                                Resize (display_width_px o) (display_height_px o);
                                Save p])%list |}).
Proof. intros Hen Ho. apply take_action_run; [exact Hen | apply options_scale; exact Ho]. Qed.

(** X12: The action "screenshot" takes the screenshot at once, with no sleep
    and no input event. *)
Theorem screenshot_action hex self w o :
  scaling_enabled self = true -> options self = inr o ->
  let p := path_div OUTPUT_DIR ("screenshot_" ++ hex (uuid_count w) ++ ".png")%string in
  let img := Resized (Capture (S (List.length (events w))))
                     (display_width_px o) (display_height_px o) in
  __call__ hex self "screenshot" PyNone PyNone w
  = (inr (result_image (Some img)),
     {| pointer := pointer w; uuid_count := S (uuid_count w);
        files := (p, img) :: files w;
        events := (events w ++ [Mkdir OUTPUT_DIR; Grab;
                                Resize (display_width_px o) (display_height_px o);
                                Save p])%list |}).
Proof.
  intros Hen Ho. apply screenshot_run; [exact Hen | apply options_scale; exact Ho].
Qed.

(** X13: The action "type" writes the text with an interval of 0.01 s, then
    sleeps and takes a screenshot. *)
Theorem type_action hex self (t : string) w o :
  scaling_enabled self = true -> options self = inr o ->
  let p := path_div OUTPUT_DIR ("screenshot_" ++ hex (uuid_count w) ++ ".png")%string in
  let img := Resized (Capture (List.length (events w) + 3))
                     (display_width_px o) (display_height_px o) in
  __call__ hex self "type" (PyStr t) PyNone w
  = (inr (result_image (Some img)),
     {| pointer := pointer w; uuid_count := S (uuid_count w);
        files := (p, img) :: files w;
        events := (events w ++ [Write t float_0_01; Sleep float_2_0; Mkdir OUTPUT_DIR; Grab;
                                Resize (display_width_px o) (display_height_px o);
                                Save p])%list |}).
Proof.
  intros Hen Ho. apply emit_take_action; [exact Hen | apply options_scale; exact Ho].
Qed.

(** X14: Each click action (left, right, middle, double) performs its one
    click at the current pointer position, then sleeps and takes a
    screenshot; the pointer does not move. *)
Theorem click_actions hex self action ev w o :
  In (action, ev) [("left_click", Click); ("right_click", RightClick);
                   ("middle_click", MiddleClick); ("double_click", DoubleClick)]%string ->
  scaling_enabled self = true -> options self = inr o ->
  let p := path_div OUTPUT_DIR ("screenshot_" ++ hex (uuid_count w) ++ ".png")%string in
  let img := Resized (Capture (List.length (events w) + 3))
                     (display_width_px o) (display_height_px o) in
  __call__ hex self action PyNone PyNone w
  = (inr (result_image (Some img)),
     {| pointer := pointer w; uuid_count := S (uuid_count w);
        files := (p, img) :: files w;
        events := (events w ++ [ev; Sleep float_2_0; Mkdir OUTPUT_DIR; Grab;
                                Resize (display_width_px o) (display_height_px o);
                                Save p])%list |}).
Proof.
  intros Hin Hen Ho. apply options_scale in Ho.
  destruct Hin as [E | [E | [E | [E | []]]]]; injection E as <- <-;
    apply emit_take_action; assumption.
Qed.

(** X15: If the screenshot after a click fails, the click has still been
    performed: the error comes after the click event. *)
Theorem click_then_screenshot_fails hex self action ev w e :
  In (action, ev) [("left_click", Click); ("right_click", RightClick);
                   ("middle_click", MiddleClick); ("double_click", DoubleClick)]%string ->
  scaling_enabled self = true -> options self = inl e ->
  __call__ hex self action PyNone PyNone w
  = (inl e,
     {| pointer := pointer w; uuid_count := S (uuid_count w); files := files w;
        events := (events w ++ [ev; Sleep float_2_0; Mkdir OUTPUT_DIR; Grab])%list |}).
Proof.
  intros Hin Hen Ho. apply options_scale_err in Ho.
  destruct Hin as [E | [E | [E | [E | []]]]]; injection E as <- <-;
    apply emit_take_action_fail; assumption.
Qed.

(** X16: On a screen of 1 to 2^32 pixels each way, with scaling enabled and
    the descriptor [options] o, mouse_move and left_click_drag with in-bounds
    non-negative coordinates send the API-scaled position to moveTo or
    dragTo, leave the pointer there, then sleep and take a screenshot. *)
Theorem move_drag_success hex self action (ev : pyval -> pyval -> event) a b w o :
  (action = "mouse_move"%string /\ ev = MoveTo) \/
  (action = "left_click_drag"%string /\ ev = DragTo) ->
  scaling_enabled self = true ->
  1 <= width self <= 2 ^ 32 -> 1 <= height self <= 2 ^ 32 ->
  0 <= a <= width self -> 0 <= b <= height self ->
  options self = inr o ->
  exists x y,
    scale_coordinates self API (PyInt a) (PyInt b) = inr (PyInt x, PyInt y) /\
    let p := path_div OUTPUT_DIR ("screenshot_" ++ hex (uuid_count w) ++ ".png")%string in
    let img := Resized (Capture (List.length (events w) + 3))
                       (display_width_px o) (display_height_px o) in
    __call__ hex self action PyNone (PyList [PyInt a; PyInt b]) w
    = (inr (result_image (Some img)),
       {| pointer := (x, y); uuid_count := S (uuid_count w);
          files := (p, img) :: files w;
          events := (events w ++ [ev (PyInt x) (PyInt y); Sleep float_2_0;
                                  Mkdir OUTPUT_DIR; Grab;
                                  Resize (display_width_px o) (display_height_px o);
                                  Save p])%list |}).
Proof.
  intros Hact Hen HW HH Ha Hb Ho. apply options_scale in Ho.
  destruct (api_scale_ok self a b Hen HW HH Ha Hb) as (x & y & Es).
  exists x, y. split; [exact Es|]. intros p img.
  assert (Hnn : forallb is_nonneg_int [PyInt a; PyInt b] = true).
  { cbn. rewrite (proj2 (Z.leb_le 0 a)), (proj2 (Z.leb_le 0 b)) by lia. reflexivity. }
  assert (Hrun : forall ev', move_pointer (ev' (PyInt x) (PyInt y)) (PyInt x) (PyInt y) w
                   = (inr tt, set_pointer (x, y) (add_event (ev' (PyInt x) (PyInt y)) w)))
    by reflexivity.
  destruct Hact as [[-> ->] | [-> ->]];
    unfold __call__; cbn [in_list existsb String.eqb Ascii.eqb Bool.eqb andb orb];
    cbn [is_none negb]; rewrite Hnn; cbn [negb];
    unfold mbind at 1, lift; rewrite Es; cbv beta iota;
    cbn [String.eqb Ascii.eqb Bool.eqb andb];
    unfold mbind at 1; rewrite Hrun; cbv beta iota;
    rewrite (take_action_run hex self _ _ _ Hen Ho);
    unfold set_pointer, add_event; cbn [pointer uuid_count files events];
    rewrite length_app; cbn [List.length];
    replace (List.length (events w) + 1 + 2)%nat with (List.length (events w) + 3)%nat by lia;
    rewrite <- !app_assoc; reflexivity.
Qed.

(** X17: On a screen of 1 to 2^32 pixels each way, with scaling enabled,
    mouse_move and left_click_drag with a non-negative coordinate past the
    screen size raise "Coordinates x, y are out of bounds" and perform no
    input event. *)
Theorem move_drag_out_of_bounds hex self action a b w :
  action = "mouse_move"%string \/ action = "left_click_drag"%string ->
  scaling_enabled self = true ->
  1 <= width self <= 2 ^ 32 -> 1 <= height self <= 2 ^ 32 ->
  0 <= a -> 0 <= b -> a > width self \/ b > height self ->
  __call__ hex self action PyNone (PyList [PyInt a; PyInt b]) w
  = (inl (ToolError [Lit "Coordinates "; Val (PyInt a); Lit ", "; Val (PyInt b);
                     Lit " are out of bounds"]), w).
Proof.
  intros Hact Hen HW HH Ha Hb Hout.
  destruct (scaling_factors_bounds self HW HH) as (sx & sy & Ef & _).
  assert (Es : scale_coordinates self API (PyInt a) (PyInt b)
               = inl (ToolError [Lit "Coordinates "; Val (PyInt a); Lit ", "; Val (PyInt b);
                                 Lit " are out of bounds"])).
  { unfold scale_coordinates. rewrite Hen, Ef. cbn [negb rbind int_value].
    replace ((a >? width self) || (b >? height self))%bool with true; [reflexivity|].
    symmetry. apply Bool.orb_true_iff. destruct Hout; [left | right]; apply Z.gtb_lt; lia. }
  assert (Hnn : forallb is_nonneg_int [PyInt a; PyInt b] = true).
  { cbn. rewrite (proj2 (Z.leb_le 0 a)), (proj2 (Z.leb_le 0 b)) by lia. reflexivity. }
  destruct Hact as [-> | ->];
    unfold __call__; cbn [in_list existsb String.eqb Ascii.eqb Bool.eqb andb orb];
    cbn [is_none negb]; rewrite Hnn; cbn [negb];
    unfold mbind, lift; rewrite Es; reflexivity.
Qed.

(** X18: The argument checks of mouse_move and left_click_drag, in their
    order, with their messages; none changes the machine. *)
Theorem move_drag_messages hex self action text coordinate w :
  action = "mouse_move"%string \/ action = "left_click_drag"%string ->
  (coordinate = PyNone ->
   __call__ hex self action text coordinate w
   = (inl (ToolError [Lit "coordinate is required for "; Val (PyStr action)]), w)) /\
  (coordinate <> PyNone -> text <> PyNone ->
   __call__ hex self action text coordinate w
   = (inl (ToolError [Lit "text is not accepted for "; Val (PyStr action)]), w)) /\
  (text = PyNone -> coordinate <> PyNone -> (forall c0 c1, coordinate <> PyList [c0; c1]) ->
   __call__ hex self action text coordinate w
   = (inl (ToolError [Val coordinate; Lit " must be a tuple of length 2"]), w)) /\
  (forall c0 c1, text = PyNone -> coordinate = PyList [c0; c1] ->
   is_nonneg_int c0 = false \/ is_nonneg_int c1 = false ->
   __call__ hex self action text coordinate w
   = (inl (ToolError [Val coordinate; Lit " must be a tuple of non-negative ints"]), w)).
Proof.
  intros Hact.
  assert (Hin : in_list action ["mouse_move"; "left_click_drag"]%string = true)
    by (destruct Hact as [-> | ->]; reflexivity).
  unfold __call__. rewrite Hin. split; [|split; [|split]].
  - intros ->. reflexivity.
  - intros Hc Ht. destruct coordinate; try (exfalso; apply Hc; reflexivity);
      (destruct text; [exfalso; apply Ht; reflexivity | reflexivity ..]).
  - intros -> Hc Hl. cbn [is_none negb].
    destruct coordinate as [| | | | | l | l]; try (exfalso; apply Hc; reflexivity);
      try reflexivity.
    destruct l as [|c0 [|c1 [|c2 l]]]; try reflexivity.
    exfalso. eapply Hl. reflexivity.
  - intros c0 c1 -> -> Hneg. cbn [is_none negb forallb].
    destruct Hneg as [E | E]; rewrite E; [reflexivity|].
    rewrite andb_false_r. reflexivity.
Qed.

(** X19: The first two argument checks of key and type, in their order,
    with their messages: a missing text, then a coordinate; neither changes
    the machine. *)
Theorem key_type_messages hex self action text coordinate w :
  action = "key"%string \/ action = "type"%string ->
  (text = PyNone ->
   __call__ hex self action text coordinate w
   = (inl (ToolError [Lit "text is required for "; Val (PyStr action)]), w)) /\
  (text <> PyNone -> coordinate <> PyNone ->
   __call__ hex self action text coordinate w
   = (inl (ToolError [Lit "coordinate is not accepted for "; Val (PyStr action)]), w)).
Proof.
  intros Hact.
  assert (H1 : in_list action ["mouse_move"; "left_click_drag"]%string = false)
    by (destruct Hact as [-> | ->]; reflexivity).
  assert (H2 : in_list action ["key"; "type"]%string = true)
    by (destruct Hact as [-> | ->]; reflexivity).
  unfold __call__. rewrite H1, H2. split.
  - intros ->. reflexivity.
  - intros Ht Hc. destruct text; try (exfalso; apply Ht; reflexivity);
      (destruct coordinate; [exfalso; apply Hc; reflexivity | reflexivity ..]).
Qed.

(** X20: The clicks, screenshot and cursor_position reject a text, then a
    coordinate, with their messages; neither changes the machine. *)
Theorem click_messages hex self action text coordinate w :
  In action ["left_click"; "right_click"; "double_click"; "middle_click";
             "screenshot"; "cursor_position"]%string ->
  (text <> PyNone ->
   __call__ hex self action text coordinate w
   = (inl (ToolError [Lit "text is not accepted for "; Val (PyStr action)]), w)) /\
  (text = PyNone -> coordinate <> PyNone ->
   __call__ hex self action text coordinate w
   = (inl (ToolError [Lit "coordinate is not accepted for "; Val (PyStr action)]), w)).
Proof.
  intros Hin.
  assert (H1 : in_list action ["mouse_move"; "left_click_drag"]%string = false
               /\ in_list action ["key"; "type"]%string = false
               /\ in_list action ["left_click"; "right_click"; "double_click"; "middle_click";
                                  "screenshot"; "cursor_position"]%string = true)
    by (destruct Hin as [<- | [<- | [<- | [<- | [<- | [<- | []]]]]]]; repeat split).
  destruct H1 as (H1 & H2 & H3).
  unfold __call__. rewrite H1, H2, H3. split.
  - intros Ht. destruct text; [exfalso; apply Ht; reflexivity | reflexivity ..].
  - intros -> Hc. destruct coordinate; [exfalso; apply Hc; reflexivity | reflexivity ..].
Qed.

(** X21: With scaling enabled, the origin (0, 0) is scaled to (0, 0) in both
    directions. *)
Theorem scale_origin self source :
  scaling_enabled self = true ->
  1 <= width self <= 2 ^ 32 -> 1 <= height self <= 2 ^ 32 ->
  scale_coordinates self source (PyInt 0) (PyInt 0) = inr (PyInt 0, PyInt 0).
Proof.
  intros Hen HW HH.
  destruct (scaling_factors_bounds self HW HH) as (sx & sy & Ef & Fx & Fy & Bx & By).
  assert (RW : (1 <= IZR (width self))%R) by (apply IZR_le; lia).
  assert (HK : (0 < 1200 / IZR (width self))%R) by (apply Rdiv_lt_0_compat; lra).
  assert (Px : (0 < FloatErr.B2R sx)%R) by (unfold FloatErr.krel in Bx; nra).
  assert (Py : (0 < FloatErr.B2R sy)%R) by (unfold FloatErr.krel in By; nra).
  destruct sx as [[]|[]| |[] mx ex]; try contradiction; [simpl in Px; lra|].
  destruct sy as [[]|[]| |[] my ey]; try contradiction; [simpl in Py; lra|].
  unfold scale_coordinates. rewrite Hen, Ef. cbn [negb rbind int_value].
  destruct source.
  - reflexivity.
  - rewrite (gtb_false 0), (gtb_false 0) by lia. reflexivity.
Qed.

(** X22: With scaling enabled, a screen position (x, y) is scaled down to
    non-negative integers within 1 of x * 1200 / width and y * 1200 / width. *)
Theorem computer_scale_accuracy self x y :
  scaling_enabled self = true ->
  1 <= width self <= 2 ^ 32 -> 1 <= height self <= 2 ^ 32 ->
  0 <= x <= 2 ^ 32 -> 0 <= y <= 2 ^ 32 ->
  exists rx ry,
    scale_coordinates self COMPUTER (PyInt x) (PyInt y) = inr (PyInt rx, PyInt ry) /\
    0 <= rx /\ 0 <= ry /\
    (Rabs (IZR rx - IZR x * 1200 / IZR (width self)) < 1)%R /\
    (Rabs (IZR ry - IZR y * 1200 / IZR (width self)) < 1)%R.
Proof.
  intros Hen HW HH Hx Hy.
  destruct (computer_scale_close self x y Hen HW HH Hx Hy) as (rx & ry & E & H1 & H2 & H3 & H4).
  exists rx, ry. unfold Rdiv in *. rewrite !Rmult_assoc. tauto.
Qed.

(** X23: On a screen of 1 to 2^32 pixels each way, with scaling enabled
    and the pointer on the screen, cursor_position reports the scaled
    pointer position "X=sx,Y=sy" with 0 <= sx <= 1200 and
    0 <= sy < height * 1200 / width + 1, and changes nothing. *)
Theorem cursor_position_in_range hex self w :
  scaling_enabled self = true ->
  1 <= width self <= 2 ^ 32 -> 1 <= height self <= 2 ^ 32 ->
  0 <= fst (pointer w) <= width self -> 0 <= snd (pointer w) <= height self ->
  exists sx sy,
    __call__ hex self "cursor_position" PyNone PyNone w
    = (inr (result_output [Lit "X="; Val (PyInt sx); Lit ",Y="; Val (PyInt sy)]), w) /\
    0 <= sx <= IMAGE_MAX_WIDTH /\ 0 <= sy /\
    (IZR sy < IZR (height self) * 1200 / IZR (width self) + 1)%R.
Proof.
  intros Hen HW HH Hx Hy.
  destruct (computer_scale_close self (fst (pointer w)) (snd (pointer w)) Hen HW HH
              ltac:(lia) ltac:(lia)) as (rx & ry & E & H1 & H2 & H3 & H4).
  exists rx, ry. split.
  - unfold __call__. cbn -[scale_coordinates take_action_screenshot screenshot].
    unfold mbind, position, lift. rewrite E. reflexivity.
  - assert (RW : (1 <= IZR (width self))%R) by (apply IZR_le; lia).
    assert (HK : (0 < 1200 / IZR (width self))%R) by (apply Rdiv_lt_0_compat; lra).
    assert (Ex : (IZR (fst (pointer w)) * (1200 / IZR (width self)) <= 1200)%R).
    { replace 1200%R with (IZR (width self) * (1200 / IZR (width self)))%R at 2
        by (field; lra).
      apply Rmult_le_compat_r; [lra|]. apply IZR_le. lia. }
    assert (Ey : (IZR (snd (pointer w)) * (1200 / IZR (width self))
                  <= IZR (height self) * (1200 / IZR (width self)))%R).
    { apply Rmult_le_compat_r; [lra|]. apply IZR_le. lia. }
    apply Rabs_def2 in H3. apply Rabs_def2 in H4.
    assert (rx < 1201) by (apply lt_IZR; lra).
    unfold IMAGE_MAX_WIDTH. split; [lia|]. split; [lia|].
    unfold Rdiv in *. rewrite Rmult_assoc. lra.
Qed.

(** *** Instances *)

Lemma chunks_concat_witness :
  exists l, chunks "abcdefg" 3 = inr l /\ String.concat "" l = "abcdefg"%string.
Proof. apply chunks_concat. lia. Defined.

Lemma chunks_sizes_witness :
  exists l, chunks "abcdefg" 3 = inr l /\
    Z.of_nat (List.length l) = (Z.of_nat (String.length "abcdefg") + 3 - 1) / 3 /\
    Forall (fun c => (0 < String.length c)%nat /\ Z.of_nat (String.length c) <= 3) l /\
    Forall (fun c => Z.of_nat (String.length c) = 3) (removelast l).
Proof. apply chunks_sizes. lia. Defined.

Lemma chunks_nonpositive_witness :
  chunks "abcdefg" (-2) = if (-2) =? 0 then inl ValueError else inr [].
Proof. apply chunks_nonpositive. lia. Defined.

Lemma init_defaults_witness :
  __init__ (fun k => if String.eqb k "WIDTH" then Some ""%string else None)
  = inr ({| width := 1920; height := 1080; display_num := None; scaling_enabled := true |},
         true).
Proof.
  apply init_defaults; [right | left | idtac]; reflexivity.
Defined.

Lemma init_size_check_witness :
  (-5 = 0 \/ 1080 = 0 ->
   __init__ (fun k => if String.eqb k "WIDTH" then Some "-5"%string else None)
   = inl (AssertionError "WIDTH, HEIGHT must be set")) /\
  (-5 <> 0 -> 1080 <> 0 ->
   __init__ (fun k => if String.eqb k "WIDTH" then Some "-5"%string else None)
   = inr ({| width := -5; height := 1080; display_num := None; scaling_enabled := true |},
          true)).
Proof. apply init_size_check; vm_compute; reflexivity. Defined.

Lemma init_width_decimal_witness :
  __init__ (fun k => if String.eqb k "WIDTH"
                     then Some (string_of_list_ascii ([" "%char] ++ map digit_char [1; 2; 8; 0]
                                                      ++ ["010"%char]))
                     else if String.eqb k "DISPLAY_NUM" then Some "1"%string
                     else None)
  = inr ({| width := decimal_value [1; 2; 8; 0]; height := 1080; display_num := Some 1;
            scaling_enabled := true |}, true).
Proof.
  apply init_width_decimal with (ws1 := [" "%char]) (ws2 := ["010"%char]).
  - reflexivity.
  - repeat constructor.
  - repeat constructor.
  - discriminate.
  - repeat (constructor; [lia|]). constructor.
  - cbn. lia.
  - vm_compute. congruence.
  - reflexivity.
  - lia.
  - right. exists "1"%string, 1. repeat split.
Defined.

Lemma init_display_blank_witness :
  __init__ (fun k => if String.eqb k "DISPLAY_NUM" then Some ""%string else None)
  = inl (InitError ValueError).
Proof.
  apply (init_display_blank _ 1920 1080 ""); try reflexivity; try lia. constructor.
Defined.

Lemma screenshot_matches_options_witness :
  let p := path_div OUTPUT_DIR ("screenshot_" ++ hex0 (uuid_count world0) ++ ".png")%string in
  let img := Resized (Capture (S (List.length (events world0))))
                     (display_width_px options_1920) (display_height_px options_1920) in
  screenshot hex0 default_tool world0
  = (inr (result_image (Some img)),
     {| pointer := pointer world0; uuid_count := S (uuid_count world0);
        files := (p, img) :: files world0;
        events := (events world0 ++ [Mkdir OUTPUT_DIR; Grab;
                                     Resize (display_width_px options_1920)
                                            (display_height_px options_1920);
                                     Save p])%list |}).
Proof. apply screenshot_matches_options; vm_compute; reflexivity. Defined.

Lemma screenshot_unscaled_witness :
  let self := {| width := 1920; height := 1080; display_num := None;
                 scaling_enabled := false |} in
  let p := path_div OUTPUT_DIR ("screenshot_" ++ hex0 (uuid_count world0) ++ ".png")%string in
  let img := Capture (S (List.length (events world0))) in
  screenshot hex0 self world0
  = (inr (result_image (Some img)),
     {| pointer := pointer world0; uuid_count := S (uuid_count world0);
        files := (p, img) :: files world0;
        events := (events world0 ++ [Mkdir OUTPUT_DIR; Grab; Save p])%list |}).
Proof. intros self. apply screenshot_unscaled. reflexivity. Defined.

Lemma screenshot_fails_witness :
  screenshot hex0 (tool_wh 1920 0) world0
  = (inl ZeroDivisionError,
     {| pointer := pointer world0; uuid_count := S (uuid_count world0); files := files world0;
        events := (events world0 ++ [Mkdir OUTPUT_DIR; Grab])%list |}).
Proof. apply screenshot_fails; vm_compute; reflexivity. Defined.

Lemma take_action_screenshot_sleeps_witness :
  let p := path_div OUTPUT_DIR ("screenshot_" ++ hex0 (uuid_count world0) ++ ".png")%string in
  let img := Resized (Capture (List.length (events world0) + 2))
                     (display_width_px options_1920) (display_height_px options_1920) in
  take_action_screenshot hex0 default_tool world0
  = (inr (result_image (Some img)),
     {| pointer := pointer world0; uuid_count := S (uuid_count world0);
        files := (p, img) :: files world0;
        events := (events world0 ++ [Sleep float_2_0; Mkdir OUTPUT_DIR; Grab;
                                     Resize (display_width_px options_1920)
                                            (display_height_px options_1920);
                                     Save p])%list |}).
Proof. apply take_action_screenshot_sleeps; vm_compute; reflexivity. Defined.

Lemma screenshot_action_witness :
  let p := path_div OUTPUT_DIR ("screenshot_" ++ hex0 (uuid_count world0) ++ ".png")%string in
  let img := Resized (Capture (S (List.length (events world0))))
                     (display_width_px options_1920) (display_height_px options_1920) in
  __call__ hex0 default_tool "screenshot" PyNone PyNone world0
  = (inr (result_image (Some img)),
     {| pointer := pointer world0; uuid_count := S (uuid_count world0);
        files := (p, img) :: files world0;
        events := (events world0 ++ [Mkdir OUTPUT_DIR; Grab;
                                     Resize (display_width_px options_1920)
                                            (display_height_px options_1920);
                                     Save p])%list |}).
Proof. apply screenshot_action; vm_compute; reflexivity. Defined.

Lemma type_action_witness :
  let p := path_div OUTPUT_DIR ("screenshot_" ++ hex0 (uuid_count world0) ++ ".png")%string in
  let img := Resized (Capture (List.length (events world0) + 3))
                     (display_width_px options_1920) (display_height_px options_1920) in
  __call__ hex0 default_tool "type" (PyStr " Hello+World ") PyNone world0
  = (inr (result_image (Some img)),
     {| pointer := pointer world0; uuid_count := S (uuid_count world0);
        files := (p, img) :: files world0;
        events := (events world0 ++ [Write " Hello+World " float_0_01; Sleep float_2_0;
                                     Mkdir OUTPUT_DIR; Grab;
                                     Resize (display_width_px options_1920)
                                            (display_height_px options_1920);
                                     Save p])%list |}).
Proof. apply type_action; vm_compute; reflexivity. Defined.

Lemma click_actions_witness :
  let p := path_div OUTPUT_DIR ("screenshot_" ++ hex0 (uuid_count world0) ++ ".png")%string in
  let img := Resized (Capture (List.length (events world0) + 3))
                     (display_width_px options_1920) (display_height_px options_1920) in
  __call__ hex0 default_tool "right_click" PyNone PyNone world0
  = (inr (result_image (Some img)),
     {| pointer := pointer world0; uuid_count := S (uuid_count world0);
        files := (p, img) :: files world0;
        events := (events world0 ++ [RightClick; Sleep float_2_0; Mkdir OUTPUT_DIR; Grab;
                                     Resize (display_width_px options_1920)
                                            (display_height_px options_1920);
                                     Save p])%list |}).
Proof.
  apply click_actions; [right; left; reflexivity | vm_compute; reflexivity ..].
Defined.

Lemma click_then_screenshot_fails_witness :
  __call__ hex0 (tool_wh 1920 0) "double_click" PyNone PyNone world0
  = (inl ZeroDivisionError,
     {| pointer := pointer world0; uuid_count := S (uuid_count world0); files := files world0;
        events := (events world0 ++ [DoubleClick; Sleep float_2_0; Mkdir OUTPUT_DIR; Grab])%list |}).
Proof.
  apply click_then_screenshot_fails; [right; right; right; left; reflexivity
                                     | vm_compute; reflexivity ..].
Defined.

Lemma move_drag_success_witness :
  exists x y,
    scale_coordinates default_tool API (PyInt 600) (PyInt 300) = inr (PyInt x, PyInt y) /\
    let p := path_div OUTPUT_DIR ("screenshot_" ++ hex0 (uuid_count world0) ++ ".png")%string in
    let img := Resized (Capture (List.length (events world0) + 3))
                       (display_width_px options_1920) (display_height_px options_1920) in
    __call__ hex0 default_tool "mouse_move" PyNone (PyList [PyInt 600; PyInt 300]) world0
    = (inr (result_image (Some img)),
       {| pointer := (x, y); uuid_count := S (uuid_count world0);
          files := (p, img) :: files world0;
          events := (events world0 ++ [MoveTo (PyInt x) (PyInt y); Sleep float_2_0;
                                       Mkdir OUTPUT_DIR; Grab;
                                       Resize (display_width_px options_1920)
                                              (display_height_px options_1920);
                                       Save p])%list |}).
Proof.
  apply move_drag_success; [left; split; reflexivity | reflexivity | cbn; lia .. |
                            vm_compute; reflexivity].
Defined.

Lemma move_drag_out_of_bounds_witness :
  __call__ hex0 default_tool "left_click_drag" PyNone (PyList [PyInt 100; PyInt 1200]) world0
  = (inl (ToolError [Lit "Coordinates "; Val (PyInt 100); Lit ", "; Val (PyInt 1200);
                     Lit " are out of bounds"]), world0).
Proof. apply move_drag_out_of_bounds; [right; reflexivity | reflexivity | cbn; lia ..]. Defined.

Lemma move_drag_messages_witness :
  let action := "mouse_move"%string in
  let coordinate := PyList [PyInt 1; PyInt (-1)] in
  (coordinate = PyNone ->
   __call__ hex0 default_tool action PyNone coordinate world0
   = (inl (ToolError [Lit "coordinate is required for "; Val (PyStr action)]), world0)) /\
  (coordinate <> PyNone -> PyNone <> PyNone ->
   __call__ hex0 default_tool action PyNone coordinate world0
   = (inl (ToolError [Lit "text is not accepted for "; Val (PyStr action)]), world0)) /\
  (PyNone = PyNone -> coordinate <> PyNone -> (forall c0 c1, coordinate <> PyList [c0; c1]) ->
   __call__ hex0 default_tool action PyNone coordinate world0
   = (inl (ToolError [Val coordinate; Lit " must be a tuple of length 2"]), world0)) /\
  (forall c0 c1, PyNone = PyNone -> coordinate = PyList [c0; c1] ->
   is_nonneg_int c0 = false \/ is_nonneg_int c1 = false ->
   __call__ hex0 default_tool action PyNone coordinate world0
   = (inl (ToolError [Val coordinate; Lit " must be a tuple of non-negative ints"]), world0)).
Proof. intros action coordinate. apply move_drag_messages. left; reflexivity. Defined.

Lemma key_type_messages_witness :
  let action := "key"%string in
  (PyStr "a" = PyNone ->
   __call__ hex0 default_tool action (PyStr "a") (PyInt 3) world0
   = (inl (ToolError [Lit "text is required for "; Val (PyStr action)]), world0)) /\
  (PyStr "a" <> PyNone -> PyInt 3 <> PyNone ->
   __call__ hex0 default_tool action (PyStr "a") (PyInt 3) world0
   = (inl (ToolError [Lit "coordinate is not accepted for "; Val (PyStr action)]), world0)).
Proof. intros action. apply key_type_messages. left; reflexivity. Defined.

Lemma click_messages_witness :
  let action := "cursor_position"%string in
  (PyStr "a" <> PyNone ->
   __call__ hex0 default_tool action (PyStr "a") PyNone world0
   = (inl (ToolError [Lit "text is not accepted for "; Val (PyStr action)]), world0)) /\
  (PyStr "a" = PyNone -> PyNone <> PyNone ->
   __call__ hex0 default_tool action (PyStr "a") PyNone world0
   = (inl (ToolError [Lit "coordinate is not accepted for "; Val (PyStr action)]), world0)).
Proof.
  intros action. apply click_messages.
  right; right; right; right; right; left; reflexivity.
Defined.

Lemma scale_origin_witness :
  scale_coordinates default_tool COMPUTER (PyInt 0) (PyInt 0) = inr (PyInt 0, PyInt 0).
Proof. apply scale_origin; [reflexivity | cbn; lia ..]. Defined.

Lemma computer_scale_accuracy_witness :
  exists rx ry,
    scale_coordinates default_tool COMPUTER (PyInt 1000) (PyInt 500)
    = inr (PyInt rx, PyInt ry) /\
    0 <= rx /\ 0 <= ry /\
    (Rabs (IZR rx - IZR 1000 * 1200 / IZR (width default_tool)) < 1)%R /\
    (Rabs (IZR ry - IZR 500 * 1200 / IZR (width default_tool)) < 1)%R.
Proof. apply computer_scale_accuracy; [reflexivity | cbn; lia ..]. Defined.

Lemma cursor_position_in_range_witness :
  exists sx sy,
    __call__ hex0 default_tool "cursor_position" PyNone PyNone world0
    = (inr (result_output [Lit "X="; Val (PyInt sx); Lit ",Y="; Val (PyInt sy)]), world0) /\
    0 <= sx <= IMAGE_MAX_WIDTH /\ 0 <= sy /\
    (IZR sy < IZR (height default_tool) * 1200 / IZR (width default_tool) + 1)%R.
Proof. apply cursor_position_in_range; [reflexivity | cbn; lia ..]. Defined.
